(** * Coastal Threat Alert System: anomaly pipeline

  A shallow embedding of [backend/anomaly_model.py], of the [ingest] route of
  [backend/main.py] and of [build_alert] of [simulation/simulate.py], with
  the properties of the detection pipeline stated over it.

  Python floats are IEEE-754 binary64 values: they are modelled by Rocq's
  primitive floats, whose operations are the correctly rounded binary64 ones.
  Dictionaries are finite maps ([gmap]), lists and deques are lists. *)

From Stdlib Require Import Floats ZArith List Bool Lia Sorted.
From Stdlib Require Uint63 OrdersEx.
From stdpp Require Import gmap strings list.

Set Warnings "-inexact-float,-register-all,-clear-no-such-hyp".

(** ** Python built-ins used by the pipeline *)

Module Py.

Open Scope float_scope.

(** [a > b] on floats; false as soon as one side is NaN. *)
Definition gt (a b : float) : bool := b <? a.

(** [a < b] on floats. *)
Definition lt (a b : float) : bool := a <? b.

(** [d.get(k, dflt)]. *)
Definition get {V : Type} (d : gmap string V) (k : string) (dflt : V) : V :=
  match d !! k with
  | Some v => v
  | None => dflt
  end.

(** [bool(x)] of a float: zero of either sign is falsy, NaN is truthy. *)
Definition truthy_float (x : float) : bool := negb (x =? 0).

(** [a or b] on floats: the first operand when it is truthy. *)
Definition or_float (a b : float) : float := if truthy_float a then a else b.

(** [bool(l)] of a list. *)
Definition truthy_list {A : Type} (l : list A) : bool :=
  match l with
  | [] => false
  | _ :: _ => true
  end.

(** [s in l] for a list of strings. *)
Definition contains (s : string) (l : list string) : bool :=
  existsb (String.eqb s) l.

(** [max(a, b)]: the first argument unless the second is strictly greater. *)
Definition max (a b : float) : float := if gt b a then b else a.

(** [float(n)] of a non-negative machine integer. *)
Definition float_of_nat (n : nat) : float :=
  of_uint63 (Uint63.of_Z (Z.of_nat n)).

(** [collections.deque(maxlen=...)], kept as the list of its items, oldest
    first.  [append] adds on the right and, when that exceeds [maxlen],
    discards one item from the left. *)
Definition deque_append (maxlen : nat) (buf : list float) (x : float)
  : list float :=
  let buf' := buf ++ [x] in
  if (maxlen <? length buf')%nat then tail buf' else buf'.

(** The exceptions the pipeline can meet, and the outcome of a call that
    either returns or raises. *)
Inductive exn : Type :=
| FileNotFoundError
| UnpicklingError
| ValueError
| IntegrityError.

Inductive result (A : Type) : Type :=
| Ok (a : A)
| Raise (e : exn).

Arguments Ok {A} a.
Arguments Raise {A} e.

(** JSON values, as far as their truth value goes. *)
Inductive value : Type :=
| VNone
| VBool (b : bool)
| VInt (n : Z)
| VFloat (x : float)
| VStr (s : string)
| VList (items : list value)
| VDict (items : list (string * value)).

(** [bool(v)]. *)
Definition truthy (v : value) : bool :=
  match v with
  | VNone => false
  | VBool b => b
  | VInt n => negb (n =? 0)%Z
  | VFloat x => truthy_float x
  | VStr s => negb (String.eqb s EmptyString)
  | VList items => truthy_list items
  | VDict items => truthy_list items
  end.

(** Rounding a non-negative ratio to the nearest integer, ties to even. *)
Definition round_half_even (num den : Z) : Z :=
  let q := (num / den)%Z in
  let r := (num mod den)%Z in
  match (2 * r ?= den)%Z with
  | Lt => q
  | Gt => (q + 1)%Z
  | Eq => if Z.even q then q else (q + 1)%Z
  end.

(** [round(x, 3)]: the exact value of [x] is rounded to three decimals, ties
    to even, and the decimal is converted back to the nearest float.  Zeros,
    infinities, NaN and integral values round to themselves; a value that
    rounds to zero keeps its sign. *)
Definition round3 (x : float) : float :=
  match Prim2SF x with
  | S754_finite s m e =>
      if (0 <=? e)%Z then x
      else
        match round_half_even (Z.pos m * 1000) (2 ^ (- e)) with
        | Z.pos n =>
            SF2Prim (SFdiv prec emax (S754_finite s n 0)
                       (S754_finite false 1000 0))
        | _ => SF2Prim (S754_zero s)
        end
  | _ => x
  end.

End Py.

(** ** The numpy reductions behind [arr.mean()], [arr.std(ddof=1)] and
     [np.clip] *)

Module Numpy.

Open Scope float_scope.

(** The eight partial sums of numpy's unrolled summation loop. *)
Record lanes : Type := Lanes {
  r0 : float; r1 : float; r2 : float; r3 : float;
  r4 : float; r5 : float; r6 : float; r7 : float
}.

Definition lanes_reduce (r : lanes) : float :=
  ((r0 r + r1 r) + (r2 r + r3 r)) + ((r4 r + r5 r) + (r6 r + r7 r)).

(** The block of at most 128 elements: whole groups of eight are added lane
    by lane, the lanes are combined as a balanced tree, and the remaining
    elements are added one by one. *)
Fixpoint unrolled_sum (r : lanes) (a : list float) : float :=
  match a with
  | a0 :: a1 :: a2 :: a3 :: a4 :: a5 :: a6 :: a7 :: rest =>
      unrolled_sum
        (Lanes (r0 r + a0) (r1 r + a1) (r2 r + a2) (r3 r + a3)
               (r4 r + a4) (r5 r + a5) (r6 r + a6) (r7 r + a7))
        rest
  | _ => fold_left PrimFloat.add a (lanes_reduce r)
  end.

Definition block_sum (a : list float) : float :=
  match a with
  | a0 :: a1 :: a2 :: a3 :: a4 :: a5 :: a6 :: a7 :: rest =>
      unrolled_sum (Lanes a0 a1 a2 a3 a4 a5 a6 a7) rest
  | _ => fold_left PrimFloat.add a 0
  end.

(** Pairwise summation: fewer than eight elements are added left to right
    from zero, up to 128 go through the unrolled block, longer arrays are
    split at a multiple of eight near the middle.  [fuel] bounds the depth
    of the splitting; the length of the array is always enough. *)
Fixpoint pairwise_sum (fuel : nat) (a : list float) : float :=
  let n := length a in
  if (n <=? 128)%nat then block_sum a
  else
    match fuel with
    | O => block_sum a
    | S fuel' =>
        let n2 := (n / 2)%nat in
        let n2 := (n2 - n2 mod 8)%nat in
        pairwise_sum fuel' (firstn n2 a) + pairwise_sum fuel' (skipn n2 a)
    end.

(** [np.add.reduce] over a one-dimensional float64 array: the result starts
    at the identity and the array's pairwise sum is added to it. *)
Definition sum (a : list float) : float := 0 + pairwise_sum (length a) a.

(** [arr.mean()]. *)
Definition mean (a : list float) : float :=
  sum a / Py.float_of_nat (length a).

(** [arr.var(ddof=ddof)]: squared deviations from the mean, summed and
    divided by [max(n - ddof, 0)]. *)
Definition var (ddof : nat) (a : list float) : float :=
  let arrmean := mean a in
  let x := map (fun v => v - arrmean) a in
  let x := map (fun d => d * d) x in
  sum x / Py.float_of_nat (length a - ddof).

(** [arr.std(ddof=ddof)]. *)
Definition std (ddof : nat) (a : list float) : float :=
  PrimFloat.sqrt (var ddof a).

(** Element-wise maximum and minimum as [np.clip] uses them: a NaN first
    operand is returned unchanged. *)
Definition clip_max (a b : float) : float :=
  if is_nan a then a else if Py.gt a b then a else b.

Definition clip_min (a b : float) : float :=
  if is_nan a then a else if Py.lt a b then a else b.

(** [np.clip(x, lo, hi)]. *)
Definition clip (x lo hi : float) : float := clip_min (clip_max x lo) hi.

End Numpy.

(** ** scikit-learn and joblib, as far as the detector uses them *)

Module Sklearn.

Open Scope float_scope.

(** A fitted [sklearn.ensemble.IsolationForest], represented by what scoring
    reads from it: [n_features_in clf] is the number of features it was fitted
    on, and [anomaly_score clf x] is the normalized outlier estimate of the
    isolation-forest paper, s(x) = 2^(-E(h(x))/c(n)), for the feature vector
    [x]. *)
Record IsolationForest : Type := {
  n_features_in : nat;
  anomaly_score : list float -> float
}.

(** The input validation of scikit-learn: the row has as many features as the
    forest was fitted on; the features are converted to float32 and must then
    all be finite.  A float64 passes when its magnitude is below
    (2 - 2^-24) * 2^127, the least value that rounds to the float32 infinity;
    NaN and the infinities do not pass. *)
Definition accepted (clf : IsolationForest) (x : list float) : bool :=
  Nat.eqb (length x) (n_features_in clf)
  && forallb (fun v => abs v <? 0x1.ffffffp127) x.

(** [clf.score_samples(X)] for one row: [ValueError] for a row the validation
    rejects, else the opposite of the anomaly score of the original paper, as
    scikit-learn defines it: the lower, the more abnormal. *)
Definition score_samples (clf : IsolationForest) (x : list float)
  : Py.result float :=
  if accepted clf x then Py.Ok (- anomaly_score clf x)
  else Py.Raise Py.ValueError.

End Sklearn.

Module Joblib.

(** What a path holds: a dumped forest, or bytes that do not unpickle. *)
Inductive file : Type :=
| Dumped (clf : Sklearn.IsolationForest)
| Corrupt.

(** [os.path.exists(path)]. *)
Definition exists_path (fs : gmap string file) (path : string) : bool :=
  match fs !! path with
  | Some _ => true
  | None => false
  end.

(** [joblib.load(path)]. *)
Definition load (fs : gmap string file) (path : string)
  : Py.result Sklearn.IsolationForest :=
  match fs !! path with
  | None => Py.Raise Py.FileNotFoundError
  | Some Corrupt => Py.Raise Py.UnpicklingError
  | Some (Dumped clf) => Py.Ok clf
  end.

End Joblib.

(** ** backend/anomaly_model.py *)

Module AnomalyModel.

Open Scope float_scope.

Definition METRIC_ORDER : list string :=
  [ "tide_level_m"; "wave_height_m"; "wind_speed_ms"; "rain_mm";
    "turbidity_NTU"; "chlorophyll_mg_m3"; "oil_slick_score" ]%string.

Module RollingZScoreDetector.

(** [buffers] is the nested [defaultdict]: station, then metric, then the
    deque of recent values.  Every deque is created with [maxlen=window];
    [window] is a non-negative integer, as [deque] requires, and is not
    reassigned after construction. *)
Record t : Type := Build {
  window : nat;
  z_thresh : float;
  buffers : gmap string (gmap string (list float))
}.

(** [RollingZScoreDetector(window, z_thresh)]. *)
Definition init (window : nat) (z_thresh : float) : t :=
  Build window z_thresh ∅.

(** [self.buffers[station_id][m]]: a missing station or metric reads as a
    fresh, empty deque. *)
Definition buffer (self : t) (station_id m : string) : list float :=
  Py.get (Py.get (buffers self) station_id ∅) m [].

Definition set_buffer (self : t) (station_id m : string) (buf : list float)
  : t :=
  Build (window self) (z_thresh self)
        (<[station_id := <[m := buf]> (Py.get (buffers self) station_id ∅)]>
           (buffers self)).

(** The z-score of [x] against the window [buf], past the warm-up. *)
Definition window_zscore (buf : list float) (x : float) : float :=
  let mu := Numpy.mean buf in
  let sd := Py.or_float (Numpy.std 1 buf) 1e-6 in
  (x - mu) / sd.

(** One turn of the loop of [update], for the metric [m]. *)
Definition update_metric (station_id : string) (metrics : gmap string float)
  (acc : t * gmap string float) (m : string) : t * gmap string float :=
  let '(self, zscores) := acc in
  let x := Py.get metrics m 0 in
  let buf := Py.deque_append (window self) (buffer self station_id m) x in
  let self := set_buffer self station_id m buf in
  if (length buf <? 10)%nat then (self, <[m := 0]> zscores)
  else (self, <[m := window_zscore buf x]> zscores).

(** [update(station_id, metrics)]: the detector after the call and the
    z-scores it returns. *)
Definition update (self : t) (station_id : string)
  (metrics : gmap string float) : t * gmap string float :=
  fold_left (update_metric station_id metrics) METRIC_ORDER (self, ∅).

(** [is_anomaly(zscores)]. *)
Definition is_anomaly (self : t) (zscores : gmap string float) : bool :=
  existsb (fun z => Py.gt (abs z) (z_thresh self))
          (map snd (map_to_list zscores)).

End RollingZScoreDetector.

Module IFDetector.

Record t : Type := Build {
  clf : option Sklearn.IsolationForest
}.

(** [load(path)]: the detector with the loaded forest, or the exception of
    [joblib.load]. *)
Definition load (fs : gmap string Joblib.file) (self : t) (path : string)
  : Py.result t :=
  match Joblib.load fs path with
  | Py.Ok c => Py.Ok (Build (Some c))
  | Py.Raise e => Py.Raise e
  end.

(** [IFDetector(model_path)]: [model_path] is [None], or a string that is
    truthy when it is not empty. *)
Definition init (fs : gmap string Joblib.file) (model_path : option string)
  : Py.result t :=
  let self := Build None in
  match model_path with
  | Some path =>
      if negb (String.eqb path EmptyString) && Joblib.exists_path fs path
      then load fs self path
      else Py.Ok self
  | None => Py.Ok self
  end.

(** [score(metrics)]: the value returned, or the exception of
    [score_samples], which nothing in [score] catches. *)
Definition score (self : t) (metrics : gmap string float) : Py.result float :=
  match clf self with
  | None => Py.Ok 0
  | Some c =>
      let x := map (fun m => Py.get metrics m 0) METRIC_ORDER in
      match Sklearn.score_samples c x with
      | Py.Ok s =>
          let norm := (0.5 - s) / 2 in
          Py.Ok (Numpy.clip norm 0 1)
      | Py.Raise e => Py.Raise e
      end
  end.

(** [save(path)]: the file system after the call.  An unfit detector writes
    nothing; a fitted one dumps its forest at [path]. *)
Definition save (fs : gmap string Joblib.file) (self : t) (path : string)
  : gmap string Joblib.file :=
  match clf self with
  | Some c => <[path := Joblib.Dumped c]> fs
  | None => fs
  end.

End IFDetector.

(** [label_threat(metrics, z, if_score)]. *)
Definition label_threat (metrics z : gmap string float) (if_score : float)
  : list string :=
  let labels := [] in
  let labels :=
    if Py.gt (abs (Py.get z "tide_level_m" 0)) 2.5
       && Py.gt (abs (Py.get z "wave_height_m" 0)) 2.5
       && Py.gt (abs (Py.get z "wind_speed_ms" 0)) 2
    then labels ++ ["possible_flooding"%string] else labels in
  let labels :=
    if Py.gt (abs (Py.get z "chlorophyll_mg_m3" 0)) 3
       && Py.gt (abs (Py.get z "turbidity_NTU" 0)) 2
    then labels ++ ["possible_algal_bloom"%string] else labels in
  let labels :=
    if Py.gt (Py.get metrics "oil_slick_score" 0) 0.4
       || Py.gt (abs (Py.get z "oil_slick_score" 0)) 3.5
    then labels ++ ["possible_oil_spill"%string] else labels in
  let labels :=
    if Py.gt if_score 0.75 && negb (Py.truthy_list labels)
    then labels ++ ["generic_anomaly"%string] else labels in
  labels.

End AnomalyModel.

(** ** backend/main.py: the [/ingest] route *)

Module Backend.

Import AnomalyModel.
Open Scope float_scope.

(** The [anomaly] dictionary of a payload, at the two keys [ingest] reads; a
    key that is absent reads as [None].  The [labels] entry is a list of
    strings, as [build_ingest_payload] writes it. *)
Record Anomaly : Type := {
  is_anomaly : option Py.value;
  labels : option (list string)
}.

Record IngestPayload : Type := {
  source : option string;
  timestamp : string;
  station_id : string;
  lat : option float;
  lon : option float;
  metrics : gmap string float;
  anomaly : option Anomaly
}.

(** A row of the table [sensor_readings]. *)
Record reading_row : Type := {
  reading_id : string;
  reading_station_id : string;
  reading_timestamp : string;
  reading_payload : IngestPayload
}.

(** A row of the table [alerts]; [acknowledged] defaults to 0. *)
Record alert_row : Type := {
  alert_id : string;
  alert_station_id : string;
  alert_timestamp : string;
  threat_type : string;
  severity : string;
  confidence : float;
  alert_payload : IngestPayload;
  acknowledged : bool
}.

(** The module-level detectors and the two tables. *)
Record state : Type := {
  det_z : RollingZScoreDetector.t;
  det_if : IFDetector.t;
  sensor_readings : list reading_row;
  alerts : list alert_row
}.

(** What a call of the route ends with: one of its two answers, or the
    exception that leaves it. *)
Inductive response : Type :=
| status_ok (labels : list string)
| status_alert_created (alert_id : string) (labels : list string)
| raised (e : Py.exn).

(** [payload.anomaly and payload.anomaly.get("is_anomaly")], as a truth
    value. *)
Definition flagged (payload : IngestPayload) : bool :=
  match anomaly payload with
  | Some a =>
      match is_anomaly a with
      | Some v => Py.truthy v
      | None => false
      end
  | None => false
  end.

(** [payload.anomaly.get("labels", [])]. *)
Definition payload_labels (payload : IngestPayload) : list string :=
  match anomaly payload with
  | Some a =>
      match labels a with
      | Some l => l
      | None => []
      end
  | None => []
  end.

(** The primary keys the two tables hold. *)
Definition reading_ids (st : state) : list string :=
  map reading_id (sensor_readings st).

Definition alert_ids (st : state) : list string :=
  map alert_id (alerts st).

(** [ingest(payload)].  [rid] and [aid] are the identifiers the two calls of
    [uuid.uuid4()] draw.  Both tables declare [id] as PRIMARY KEY: an INSERT
    under an identifier the table already holds raises [IntegrityError] and
    stores nothing.  The reading is committed before the detectors run; what
    [score] raises in the detection branch leaves the route, what it raises
    inside the [try] block leaves the confidence at 0.5. *)
Definition ingest (st : state) (rid aid : string) (payload : IngestPayload)
  : state * response :=
  if Py.contains rid (reading_ids st)
  then (st, raised Py.IntegrityError)
  else
    let readings :=
      sensor_readings st
        ++ [ {| reading_id := rid;
                reading_station_id := station_id payload;
                reading_timestamp := timestamp payload;
                reading_payload := payload |} ] in
    let '(dz, detected) :=
      if flagged payload then (det_z st, Py.Ok (payload_labels payload))
      else
        let '(dz, z) :=
          RollingZScoreDetector.update (det_z st) (station_id payload)
            (metrics payload) in
        match IFDetector.score (det_if st) (metrics payload) with
        | Py.Ok if_score =>
            (dz, Py.Ok (label_threat (metrics payload) z if_score))
        | Py.Raise e => (dz, Py.Raise e)
        end in
    let unalerted :=
      {| det_z := dz;
         det_if := det_if st;
         sensor_readings := readings;
         alerts := alerts st |} in
    match detected with
    | Py.Raise e => (unalerted, raised e)
    | Py.Ok [] => (unalerted, status_ok [])
    | Py.Ok (threat :: rest) =>
        let labels := threat :: rest in
        let severity :=
          if Py.contains "possible_oil_spill" labels
             || Py.contains "possible_flooding" labels
          then "high"%string
          else if Py.contains "possible_algal_bloom" labels
          then "medium"%string
          else "low"%string in
        let confidence :=
          match IFDetector.score (det_if st) (metrics payload) with
          | Py.Ok c => c
          | Py.Raise _ => 0.5
          end in
        if Py.contains aid (alert_ids st)
        then (unalerted, raised Py.IntegrityError)
        else
          ({| det_z := dz;
              det_if := det_if st;
              sensor_readings := readings;
              alerts :=
                alerts st
                  ++ [ {| alert_id := aid;
                          alert_station_id := station_id payload;
                          alert_timestamp := timestamp payload;
                          threat_type := threat;
                          severity := severity;
                          confidence := confidence;
                          alert_payload := payload;
                          acknowledged := false |} ] |},
           status_alert_created aid labels)
    end.

(** The outcome of [/alerts/{alert_id}/ack]: the acknowledgement, or the
    [HTTPException] with status 404. *)
Inductive ack_response : Type :=
| status_acknowledged (alert_id : string)
| not_found_404.

(** [UPDATE alerts SET acknowledged=1 WHERE id=?]. *)
Definition acknowledge (alert_id : string) (row : alert_row) : alert_row :=
  if String.eqb (Backend.alert_id row) alert_id
  then {| Backend.alert_id := Backend.alert_id row;
          alert_station_id := alert_station_id row;
          alert_timestamp := alert_timestamp row;
          threat_type := threat_type row;
          severity := severity row;
          confidence := confidence row;
          alert_payload := alert_payload row;
          acknowledged := true |}
  else row.

(** [cur.rowcount] after the update: the rows the WHERE clause selected. *)
Definition rowcount (alert_id : string) (rows : list alert_row) : nat :=
  length (List.filter (fun row => String.eqb (Backend.alert_id row) alert_id)
            rows).

(** [ack_alert(alert_id)].  The update is committed before the row count is
    looked at. *)
Definition ack_alert (st : state) (alert_id : string)
  : state * ack_response :=
  let st' :=
    {| det_z := det_z st;
       det_if := det_if st;
       sensor_readings := sensor_readings st;
       alerts := map (acknowledge alert_id) (alerts st) |} in
  let changed := rowcount alert_id (alerts st) in
  if (changed =? 0)%nat then (st', not_found_404)
  else (st', status_acknowledged alert_id).

(** One entry of the list [get_alerts] answers with. *)
Record alert_view : Type := {
  view_id : string;
  view_station_id : string;
  view_timestamp : string;
  view_threat_type : string;
  view_severity : string;
  view_confidence : float;
  view_acknowledged : bool
}.

Definition view (row : alert_row) : alert_view :=
  {| view_id := Backend.alert_id row;
     view_station_id := alert_station_id row;
     view_timestamp := alert_timestamp row;
     view_threat_type := threat_type row;
     view_severity := severity row;
     view_confidence := confidence row;
     view_acknowledged := acknowledged row |}.

(** [ORDER BY timestamp DESC]: text compares byte by byte.  Rows with equal
    timestamps come in an order SQL leaves open; here they keep the order of
    insertion. *)
Fixpoint insert_desc (row : alert_row) (sorted : list alert_row)
  : list alert_row :=
  match sorted with
  | [] => [row]
  | r :: rest =>
      if String.ltb (alert_timestamp r) (alert_timestamp row)
      then row :: r :: rest
      else r :: insert_desc row rest
  end.

Definition order_by_timestamp_desc (rows : list alert_row) : list alert_row :=
  fold_left (fun sorted row => insert_desc row sorted) rows [].

(** The timestamp of [a] is not below that of [b]. *)
Definition not_older (a b : alert_row) : Prop :=
  String.ltb (alert_timestamp a) (alert_timestamp b) = false.

(** [get_alerts()]. *)
Definition get_alerts (st : state) : list alert_view :=
  map view (order_by_timestamp_desc (alerts st)).

End Backend.

(** ** simulation/simulate.py: [build_alert] *)

Module Simulate.

Open Scope float_scope.

Record Station : Type := {
  station_id : string;
  lat : float;
  lon : float
}.

(** The dictionary [build_ingest_payload] returns. *)
Record Detectors : Type := {
  rolling_z : gmap string float;
  iforest : float
}.

Record Anomaly : Type := {
  is_anomaly : bool;
  detectors : Detectors;
  labels : list string
}.

Record IngestPayload : Type := {
  source : string;
  timestamp : string;
  payload_station_id : string;
  payload_lat : float;
  payload_lon : float;
  metrics : gmap string float;
  anomaly : Anomaly
}.

Record Alert : Type := {
  alert_timestamp : string;
  alert_station_id : string;
  threat_type : string;
  severity : string;
  confidence : float;
  latest_reading : IngestPayload
}.

(** [build_alert(station, ingest_payload, labels)]. *)
Definition build_alert (station : Station) (ingest_payload : IngestPayload)
  (labels : list string) : Alert :=
  let sev := "low"%string in
  let sev :=
    if Py.contains "possible_oil_spill" labels
       || Py.contains "possible_flooding" labels
    then "high"%string
    else if Py.contains "possible_algal_bloom" labels
    then "medium"%string
    else sev in
  {| alert_timestamp := timestamp ingest_payload;
     alert_station_id := station_id station;
     threat_type :=
       match labels with
       | first :: _ => first
       | [] => "generic_anomaly"%string
       end;
     severity := sev;
     confidence := Py.max 0.5 (iforest (detectors (anomaly ingest_payload)));
     latest_reading := ingest_payload |}.

(** [build_ingest_payload(station, metrics, zscores, if_score, labels)];
    [now] is what [now_iso()] returns. *)
Definition build_ingest_payload (now : string) (station : Station)
  (metrics zscores : gmap string float) (if_score : float)
  (labels : list string) : IngestPayload :=
  {| source := "simulator";
     timestamp := now;
     payload_station_id := station_id station;
     payload_lat := lat station;
     payload_lon := lon station;
     metrics := metrics;
     anomaly :=
       {| is_anomaly := Py.truthy_list labels;
          detectors :=
            {| rolling_z := Py.round3 <$> zscores;
               iforest := Py.round3 if_score |};
          labels := labels |} |}.

(** What one turn of the loop of [main] sends out, in order: the line
    appended to out/stream.jsonl, the request to /ingest, the line appended
    to out/alerts.jsonl and the request to /alerts. *)
Inductive output : Type :=
| WriteStream (p : IngestPayload)
| PostIngest (p : IngestPayload)
| WriteAlert (a : Alert)
| PostAlert (a : Alert).

(** [post_json] sends nothing when [BACKEND_URL] is empty or [POST_MODE] is
    "none". *)
Definition posts (backend_url post_mode : string) : bool :=
  negb (String.eqb backend_url EmptyString)
  && negb (String.eqb post_mode "none").

(** Whether a turn sends a request to the route [target] ("ingest" or
    "alerts"): [POST_MODE] is [target] or "both", and [post_json] sends. *)
Definition sends_to (backend_url post_mode target : string) : bool :=
  (String.eqb post_mode target || String.eqb post_mode "both")
  && posts backend_url post_mode.

(** One turn of the inner loop of [main], for the station [st] and the
    metrics [gen_metrics] drew for it: the detector afterwards and the
    outputs, or the exception of [score], which ends the simulator before
    anything is written.  The answers of the backend only decide which
    warnings are printed; warnings are left out. *)
Definition station_turn (backend_url post_mode now : string)
  (det_z : AnomalyModel.RollingZScoreDetector.t)
  (det_if : AnomalyModel.IFDetector.t) (st : Station)
  (metrics : gmap string float)
  : AnomalyModel.RollingZScoreDetector.t * Py.result (list output) :=
  let '(det_z, z) :=
    AnomalyModel.RollingZScoreDetector.update det_z (station_id st) metrics in
  match AnomalyModel.IFDetector.score det_if metrics with
  | Py.Raise e => (det_z, Py.Raise e)
  | Py.Ok if_score =>
      let labels := AnomalyModel.label_threat metrics z if_score in
      let ingest_payload :=
        build_ingest_payload now st metrics z if_score labels in
      let to_ingest :=
        if sends_to backend_url post_mode "ingest"
        then [PostIngest ingest_payload] else [] in
      let alerts :=
        if Py.truthy_list labels
        then
          let alert := build_alert st ingest_payload labels in
          WriteAlert alert
          :: (if sends_to backend_url post_mode "alerts"
              then [PostAlert alert] else [])
        else [] in
      (det_z, Py.Ok (WriteStream ingest_payload :: to_ingest ++ alerts))
  end.

End Simulate.

(** ** From the simulator to the backend *)

Module Wire.

(** The body [requests.post(url, json=payload)] sends, as the [IngestPayload]
    model of the backend receives it: JSON carries the strings, the finite
    floats and the list of labels unchanged, and the flag as a boolean. *)
Definition to_backend (p : Simulate.IngestPayload) : Backend.IngestPayload :=
  {| Backend.source := Some (Simulate.source p);
     Backend.timestamp := Simulate.timestamp p;
     Backend.station_id := Simulate.payload_station_id p;
     Backend.lat := Some (Simulate.payload_lat p);
     Backend.lon := Some (Simulate.payload_lon p);
     Backend.metrics := Simulate.metrics p;
     Backend.anomaly :=
       Some {| Backend.is_anomaly :=
                 Some (Py.VBool (Simulate.is_anomaly (Simulate.anomaly p)));
               Backend.labels := Some (Simulate.labels (Simulate.anomaly p)) |}
  |}.

End Wire.

(** ** The specification's own wording of the labelling policy *)

Module Spec.

Open Scope float_scope.

(** |z(m)|, a missing z-score counting as 0. *)
Definition zabs (z : gmap string float) (m : string) : float :=
  abs (Py.get z m 0).

(** Rule 1: |z(tide)| > 2.5 and |z(wave)| > 2.5 and |z(wind)| > 2.0. *)
Definition flooding_rule (z : gmap string float) : bool :=
  (2.5 <? zabs z "tide_level_m") && (2.5 <? zabs z "wave_height_m")
  && (2 <? zabs z "wind_speed_ms").

(** Rule 2: |z(chlorophyll)| > 3.0 and |z(turbidity)| > 2.0. *)
Definition algal_bloom_rule (z : gmap string float) : bool :=
  (3 <? zabs z "chlorophyll_mg_m3") && (2 <? zabs z "turbidity_NTU").

(** Rule 3: raw oil_slick_score > 0.4 or |z(oil_slick_score)| > 3.5. *)
Definition oil_spill_rule (metrics z : gmap string float) : bool :=
  (0.4 <? Py.get metrics "oil_slick_score" 0)
  || (3.5 <? zabs z "oil_slick_score").

(** Rule 4: no earlier rule fired and if_score > 0.75. *)
Definition generic_rule (metrics z : gmap string float) (if_score : float)
  : bool :=
  negb (flooding_rule z || algal_bloom_rule z || oil_spill_rule metrics z)
  && (0.75 <? if_score).

(** The label of a rule that fires. *)
Definition fired (rule : bool) (label : string) : list string :=
  if rule then [label] else [].

(** All four rules, in their fixed order. *)
Definition label (metrics z : gmap string float) (if_score : float)
  : list string :=
  fired (flooding_rule z) "possible_flooding"
  ++ fired (algal_bloom_rule z) "possible_algal_bloom"
  ++ fired (oil_spill_rule metrics z) "possible_oil_spill"
  ++ fired (generic_rule metrics z if_score) "generic_anomaly".

(** Severity: high if the labels contain possible_oil_spill or
    possible_flooding; else medium if they contain possible_algal_bloom; else
    low. *)
Definition severity (labels : list string) : string :=
  if decide ("possible_oil_spill"%string ∈ labels
             ∨ "possible_flooding"%string ∈ labels)
  then "high"
  else if decide ("possible_algal_bloom"%string ∈ labels)
  then "medium"
  else "low".

(** The user-facing score as the specification words it: clamp((0.5 - s)/2,
    0, 1) with s the normalized outlier estimate s(x) = 2^(-h(x)/c(n)). *)
Definition user_score (clf : Sklearn.IsolationForest)
  (metrics : gmap string float) : float :=
  let s :=
    Sklearn.anomaly_score clf
      (map (fun m => Py.get metrics m 0) AnomalyModel.METRIC_ORDER) in
  Numpy.clip ((0.5 - s) / 2) 0 1.

End Spec.

(** ** Histories of [update] calls *)

Module Trace.

Import AnomalyModel.

(** One call: the station and the metrics passed to [update]. *)
Definition call : Type := (string * gmap string float)%type.

(** The detector after a sequence of calls, the returned z-scores dropped. *)
Definition run (self : RollingZScoreDetector.t) (calls : list call)
  : RollingZScoreDetector.t :=
  fold_left
    (fun self c => fst (RollingZScoreDetector.update self (fst c) (snd c)))
    calls self.

(** How many of the calls were for the station. *)
Definition calls_for (station_id : string) (calls : list call) : nat :=
  length (filter (fun c => fst c = station_id) calls).

(** The values the calls for the station supplied for the metric, oldest
    first. *)
Definition supplied (station_id m : string) (calls : list call)
  : list float :=
  map (fun c => Py.get (snd c) m 0%float)
      (filter (fun c => fst c = station_id) calls).

(** The last [n] items of a list. *)
Definition keep_last {A : Type} (n : nat) (l : list A) : list A :=
  skipn (length l - n) l.

(** The z-score a call of [update] records for a metric: 0.0 while the
    window, the new value included, holds fewer than ten values. *)
Definition emitted (self : RollingZScoreDetector.t) (station_id : string)
  (metrics : gmap string float) (m : string) : float :=
  let x := Py.get metrics m 0%float in
  let buf :=
    Py.deque_append (RollingZScoreDetector.window self)
      (RollingZScoreDetector.buffer self station_id m) x in
  if (length buf <? 10)%nat then 0%float
  else RollingZScoreDetector.window_zscore buf x.

End Trace.

(** ** Sample inputs *)

Module Samples.

Open Scope float_scope.

(** A backend started without a model file, and a reading the simulator has
    already flagged as an oil spill. *)
Definition unfit_backend : Backend.state :=
  {| Backend.det_z := AnomalyModel.RollingZScoreDetector.init 60 3;
     Backend.det_if := AnomalyModel.IFDetector.Build None;
     Backend.sensor_readings := [];
     Backend.alerts := [] |}.

Definition flagged_oil_payload : Backend.IngestPayload :=
  {| Backend.source := Some "simulator"%string;
     Backend.timestamp := "2025-01-01T00:00:00Z";
     Backend.station_id := "IN-GJ-001";
     Backend.lat := Some 21.64;
     Backend.lon := Some 69.61;
     Backend.metrics := list_to_map [("oil_slick_score"%string, 0.5)];
     Backend.anomaly :=
       Some {| Backend.is_anomaly := Some (Py.VBool true);
               Backend.labels := Some ["possible_oil_spill"%string] |} |}.

(** The default artifact path, holding bytes that do not unpickle. *)
Definition corrupt_fs : gmap string Joblib.file :=
  {[ "models/iforest.joblib"%string := Joblib.Corrupt ]}.

(** A backend that has loaded a forest, with empty tables. *)
Definition fitted_backend (clf : Sklearn.IsolationForest) : Backend.state :=
  {| Backend.det_z := AnomalyModel.RollingZScoreDetector.init 60 3;
     Backend.det_if := AnomalyModel.IFDetector.Build (Some clf);
     Backend.sensor_readings := [];
     Backend.alerts := [] |}.

(** A forest for which the sample at hand is a typical point: s(x) = 0.5. *)
Definition typical_forest : Sklearn.IsolationForest :=
  {| Sklearn.n_features_in := 7; Sklearn.anomaly_score := fun _ => 0.5 |}.

(** A forest for which the sample at hand is a strong outlier: s(x) = 1. *)
Definition outlier_forest : Sklearn.IsolationForest :=
  {| Sklearn.n_features_in := 7; Sklearn.anomaly_score := fun _ => 1 |}.

(** A station whose rain gauge reads 0.3 mm on every update. *)
Definition steady_rain : gmap string float :=
  list_to_map [("rain_mm"%string, 0.3)].

Definition steady_rain_calls (n : nat) : list Trace.call :=
  replicate n ("IN-GJ-001"%string, steady_rain).

(** A station whose tide level reads 1.5 m on every update. *)
Definition steady_tide : gmap string float :=
  list_to_map [("tide_level_m"%string, 1.5)].

Definition steady_tide_calls (n : nat) : list Trace.call :=
  replicate n ("IN-GJ-001"%string, steady_tide).

(** A station whose tide gauge reports infinity on every update. *)
Definition stuck_tide : gmap string float :=
  list_to_map [("tide_level_m"%string, infinity)].

Definition stuck_tide_calls (n : nat) : list Trace.call :=
  replicate n ("IN-GJ-001"%string, stuck_tide).

(** A tide reading that is finite as a Python float but beyond the range of
    float32. *)
Definition beyond_float32_tide : gmap string float :=
  list_to_map [("tide_level_m"%string, 1e39)].

(** The steady rain reading with a key the detector does not know. *)
Definition steady_rain_salinity : gmap string float :=
  list_to_map [("rain_mm"%string, 0.3); ("salinity_psu"%string, 35)].

(** Three rain readings of one station, with and without readings of another
    station in between. *)
Definition interleaved_calls : list Trace.call :=
  [ ("IN-GJ-001"%string, steady_rain); ("IN-MH-002"%string, steady_tide);
    ("IN-GJ-001"%string, steady_rain); ("IN-MH-002"%string, stuck_tide);
    ("IN-GJ-001"%string, steady_rain) ].

(** The six z-score keys and the one raw metric the labeller reads. *)
Definition labeller_z_keys : list string :=
  [ "tide_level_m"; "wave_height_m"; "wind_speed_ms"; "chlorophyll_mg_m3";
    "turbidity_NTU"; "oil_slick_score" ]%string.

(** The labels in the order of the rules. *)
Definition label_order : list string :=
  [ "possible_flooding"; "possible_algal_bloom"; "possible_oil_spill";
    "generic_anomaly" ]%string.

(** A storm: tide, wave and wind far from their windows, a rain z-score and a
    raw rain value on top. *)
Definition storm_z : gmap string float :=
  list_to_map [("tide_level_m"%string, 3); ("wave_height_m"%string, 3);
               ("wind_speed_ms"%string, 2.5)].

Definition storm_z_rain : gmap string float :=
  list_to_map [("tide_level_m"%string, 3); ("wave_height_m"%string, 3);
               ("wind_speed_ms"%string, 2.5); ("rain_mm"%string, 9)].

Definition storm_metrics_rain : gmap string float :=
  list_to_map [("rain_mm"%string, 20); ("tide_level_m"%string, 2.4)].

(** A file system with the typical forest dumped at the default path. *)
Definition typical_fs : gmap string Joblib.file :=
  {[ "models/iforest.joblib"%string := Joblib.Dumped typical_forest ]}.

(** A forest whose score is its sample's oil_slick_score, the seventh
    feature, halved. *)
Definition oil_forest : Sklearn.IsolationForest :=
  {| Sklearn.n_features_in := 7;
     Sklearn.anomaly_score :=
       fun x => (nth 6 x 0 / 2)%float |}.

(** A reading the backend labels itself: a raw oil_slick_score of 0.5. *)
Definition oil_payload : Backend.IngestPayload :=
  {| Backend.source := None;
     Backend.timestamp := "2025-01-01T00:00:05Z";
     Backend.station_id := "IN-MH-002";
     Backend.lat := None;
     Backend.lon := None;
     Backend.metrics := list_to_map [("oil_slick_score"%string, 0.5)];
     Backend.anomaly := None |}.

(** The backend after the flagged reading and then the oil reading. *)
Definition backend_two_alerts : Backend.state :=
  fst (Backend.ingest
         (fst (Backend.ingest unfit_backend "r1" "a1" flagged_oil_payload))
         "r2" "a2" oil_payload).

(** A station of the simulator and a calm reading of it. *)
Definition station_gj : Simulate.Station :=
  {| Simulate.station_id := "IN-GJ-001";
     Simulate.lat := 21.64;
     Simulate.lon := 69.61 |}.

Definition calm_metrics : gmap string float :=
  list_to_map [("tide_level_m"%string, 1.2); ("oil_slick_score"%string, 0.03)].

(** Two histories of one station that differ in their oldest reading only. *)
Definition old_tide_calls : list Trace.call :=
  ("IN-GJ-001"%string, stuck_tide) :: steady_tide_calls 2.

Definition recent_tide_calls : list Trace.call :=
  ("IN-GJ-001"%string, steady_rain) :: steady_tide_calls 2.

End Samples.

(** * Properties *)

Import AnomalyModel.
Open Scope float_scope.

(** ** The labeller *)

Lemma contains_elem_of (s : string) (l : list string) :
  Py.contains s l = true <-> s ∈ l.
Proof.
  unfold Py.contains. rewrite existsb_exists. split.
  - intros (y & Hin & Heq). apply String.eqb_eq in Heq. subst y.
    by apply list_elem_of_In.
  - intros Hin. exists s. split; [by apply list_elem_of_In|].
    apply String.eqb_refl.
Qed.

(** The sequential construction of [label_threat] and the rule-by-rule
    reading of the specification give the same list. *)
Lemma label_threat_unfold (metrics z : gmap string float) (if_score : float) :
  label_threat metrics z if_score = Spec.label metrics z if_score.
Proof.
  unfold label_threat, Spec.label, Spec.generic_rule, Spec.flooding_rule,
    Spec.algal_bloom_rule, Spec.oil_spill_rule, Spec.zabs, Spec.fired, Py.gt.
  destruct (2.5 <? abs (Py.get z "tide_level_m" 0)),
    (2.5 <? abs (Py.get z "wave_height_m" 0)),
    (2 <? abs (Py.get z "wind_speed_ms" 0)),
    (3 <? abs (Py.get z "chlorophyll_mg_m3" 0)),
    (2 <? abs (Py.get z "turbidity_NTU" 0)),
    (0.4 <? Py.get metrics "oil_slick_score" 0),
    (3.5 <? abs (Py.get z "oil_slick_score" 0)),
    (0.75 <? if_score); reflexivity.
Qed.

Lemma elem_of_fired (s label : string) (rule : bool) :
  s ∈ Spec.fired rule label <-> rule = true /\ s = label.
Proof.
  unfold Spec.fired. destruct rule.
  - rewrite list_elem_of_singleton. split; [by intros -> | by intros [_ ->]].
  - split; [intros Hin; inversion Hin | by intros [? _]].
Qed.

(** Which rule put a label in the result. *)
Lemma label_threat_elem_of (metrics z : gmap string float) (if_score : float)
  (s : string) :
  s ∈ label_threat metrics z if_score <->
  (Spec.flooding_rule z = true /\ s = "possible_flooding"%string)
  \/ (Spec.algal_bloom_rule z = true /\ s = "possible_algal_bloom"%string)
  \/ (Spec.oil_spill_rule metrics z = true /\ s = "possible_oil_spill"%string)
  \/ (Spec.generic_rule metrics z if_score = true
      /\ s = "generic_anomaly"%string).
Proof.
  rewrite label_threat_unfold. unfold Spec.label.
  rewrite !elem_of_app, !elem_of_fired. tauto.
Qed.

(** C1: [label_threat] returns exactly the list obtained by evaluating the four
    rules in their fixed order and appending the label of each rule that
    fires: possible_flooding, possible_algal_bloom and possible_oil_spill
    each iff its rule holds, generic_anomaly iff none of the first three fired
    and if_score > 0.75; missing keys count as 0. *)
Theorem label_threat_rules (metrics z : gmap string float) (if_score : float) :
  label_threat metrics z if_score = Spec.label metrics z if_score
  /\ ("possible_flooding"%string ∈ label_threat metrics z if_score
      <-> Spec.flooding_rule z = true)
  /\ ("possible_algal_bloom"%string ∈ label_threat metrics z if_score
      <-> Spec.algal_bloom_rule z = true)
  /\ ("possible_oil_spill"%string ∈ label_threat metrics z if_score
      <-> Spec.oil_spill_rule metrics z = true)
  /\ ("generic_anomaly"%string ∈ label_threat metrics z if_score
      <-> Spec.flooding_rule z = false /\ Spec.algal_bloom_rule z = false
          /\ Spec.oil_spill_rule metrics z = false
          /\ (0.75 <? if_score) = true).
Proof.
  split; [apply label_threat_unfold|].
  rewrite !label_threat_elem_of. unfold Spec.generic_rule.
  rewrite andb_true_iff, negb_true_iff, !orb_false_iff.
  split; [naive_solver|]. split; [naive_solver|]. split; naive_solver.
Qed.

(** The scenarios of the specification. *)
Example label_threat_flooding_scenario :
  label_threat (list_to_map [("oil_slick_score"%string, 0.1)])
    (list_to_map [("tide_level_m"%string, 3); ("wave_height_m"%string, 3);
                  ("wind_speed_ms"%string, 2.5)]) 0.2
  = ["possible_flooding"%string].
Proof. vm_compute. reflexivity. Qed.

Example label_threat_oil_scenario :
  label_threat (list_to_map [("oil_slick_score"%string, 0.5)]) ∅ 0
  = ["possible_oil_spill"%string].
Proof. vm_compute. reflexivity. Qed.

Example label_threat_generic_scenario :
  label_threat (list_to_map [("oil_slick_score"%string, 0.01)]) ∅ 0.9
  = ["generic_anomaly"%string].
Proof. vm_compute. reflexivity. Qed.

Example label_threat_bloom_scenario :
  label_threat ∅
    (list_to_map [("chlorophyll_mg_m3"%string, 3.5);
                  ("turbidity_NTU"%string, 2.5)]) 0
  = ["possible_algal_bloom"%string].
Proof. vm_compute. reflexivity. Qed.

(** ** Severity, threat type and confidence of an alert *)

Lemma severity_code_spec (labels : list string) :
  (if Py.contains "possible_oil_spill" labels
      || Py.contains "possible_flooding" labels
   then "high"%string
   else if Py.contains "possible_algal_bloom" labels
   then "medium"%string
   else "low"%string) = Spec.severity labels.
Proof.
  unfold Spec.severity.
  destruct (Py.contains "possible_oil_spill" labels) eqn:Hoil;
    destruct (Py.contains "possible_flooding" labels) eqn:Hflood;
    destruct (Py.contains "possible_algal_bloom" labels) eqn:Hbloom;
    simpl;
    repeat match goal with
    | H : Py.contains _ _ = true |- _ => apply contains_elem_of in H
    | H : Py.contains ?s ?l = false |- _ =>
        apply not_true_iff_false in H; rewrite contains_elem_of in H
    end;
    repeat case_decide; try reflexivity; tauto.
Qed.

(** What [ingest] does once the labels are known: an alert row is appended
    exactly when the route answers alert_created; its confidence is the
    ensemble score, or 0.5 when the scorer raises. *)
Lemma ingest_outcome (st : Backend.state) (rid aid : string)
  (payload : Backend.IngestPayload) :
  let st' := fst (Backend.ingest st rid aid payload) in
  match snd (Backend.ingest st rid aid payload) with
  | Backend.status_ok labels =>
      labels = [] /\ Backend.alerts st' = Backend.alerts st
  | Backend.status_alert_created alert_id labels =>
      alert_id = aid /\
      exists threat rest row,
        labels = threat :: rest
        /\ Backend.alerts st' = Backend.alerts st ++ [row]
        /\ Backend.alert_id row = aid
        /\ Backend.threat_type row = threat
        /\ Backend.severity row = Spec.severity labels
        /\ Backend.confidence row
           = match IFDetector.score (Backend.det_if st)
                     (Backend.metrics payload) with
             | Py.Ok c => c
             | Py.Raise _ => 0.5
             end
        /\ Backend.acknowledged row = false
  | Backend.raised _ => Backend.alerts st' = Backend.alerts st
  end.
Proof.
  unfold Backend.ingest.
  destruct (Py.contains rid (Backend.reading_ids st)); [done|].
  destruct (Backend.flagged payload).
  - destruct (Backend.payload_labels payload) as [|threat rest]; [done|].
    destruct (Py.contains aid (Backend.alert_ids st)); [done|].
    cbn [fst snd]. split; [done|]. eexists _, _, _.
    split; [done|]. split; [done|]. cbn.
    split; [done|]. split; [done|]. split; [|done].
    apply (severity_code_spec (threat :: rest)).
  - destruct (RollingZScoreDetector.update _ _ _) as [dz z].
    destruct (IFDetector.score _ _) as [if_score|e]; [|done].
    destruct (label_threat _ _ _) as [|threat rest]; [done|].
    destruct (Py.contains aid (Backend.alert_ids st)); [done|].
    cbn [fst snd]. split; [done|]. eexists _, _, _.
    split; [done|]. split; [done|]. cbn.
    split; [done|]. split; [done|]. split; [|done].
    apply (severity_code_spec (threat :: rest)).
Qed.

(** The answer of [ingest] when it runs the detectors. *)
Lemma ingest_detected_labels (st : Backend.state) (rid aid : string)
  (payload : Backend.IngestPayload) :
  Backend.flagged payload = false ->
  let z :=
    snd (RollingZScoreDetector.update (Backend.det_z st)
           (Backend.station_id payload) (Backend.metrics payload)) in
  snd (Backend.ingest st rid aid payload)
  = if Py.contains rid (Backend.reading_ids st)
    then Backend.raised Py.IntegrityError
    else
      match IFDetector.score (Backend.det_if st) (Backend.metrics payload) with
      | Py.Raise e => Backend.raised e
      | Py.Ok if_score =>
          match label_threat (Backend.metrics payload) z if_score with
          | [] => Backend.status_ok []
          | threat :: rest =>
              if Py.contains aid (Backend.alert_ids st)
              then Backend.raised Py.IntegrityError
              else Backend.status_alert_created aid (threat :: rest)
          end
      end.
Proof.
  intros Hflag. unfold Backend.ingest. rewrite Hflag.
  destruct (Py.contains rid (Backend.reading_ids st)); [done|].
  destruct (RollingZScoreDetector.update _ _ _) as [dz z]. cbn [snd].
  destruct (IFDetector.score _ _) as [if_score|e]; [|done].
  destruct (label_threat _ _ _) as [|threat rest]; [done|].
  by destruct (Py.contains aid (Backend.alert_ids st)).
Qed.

(** C7: the severity derived from a label list, by [build_alert] and by the
    alert row of [ingest] alike, is high if the list contains
    possible_oil_spill or possible_flooding, else medium if it contains
    possible_algal_bloom, else low.  A call of [ingest] that creates no alert
    writes no row. *)
Theorem severity_derivation (labels : list string)
  (station : Simulate.Station) (ingest_payload : Simulate.IngestPayload)
  (st : Backend.state) (rid aid : string) (payload : Backend.IngestPayload) :
  Simulate.severity (Simulate.build_alert station ingest_payload labels)
  = Spec.severity labels
  /\ match snd (Backend.ingest st rid aid payload) with
     | Backend.status_alert_created _ emitted =>
         exists row,
           Backend.alerts (fst (Backend.ingest st rid aid payload))
           = Backend.alerts st ++ [row]
           /\ Backend.severity row = Spec.severity emitted
     | Backend.status_ok _ | Backend.raised _ =>
         Backend.alerts (fst (Backend.ingest st rid aid payload))
         = Backend.alerts st
     end.
Proof.
  split.
  - simpl. apply severity_code_spec.
  - pose proof (ingest_outcome st rid aid payload) as Hout.
    simpl in Hout.
    destruct (snd (Backend.ingest st rid aid payload)) as [l|alert_id l|e].
    + by destruct Hout.
    + destruct Hout
        as (_ & threat & rest & row & _ & Halerts & _ & _ & Hsev & _).
      by exists row.
    + done.
Qed.

(** The severities of the scenarios of the specification. *)
Example severity_scenarios :
  Spec.severity ["possible_flooding"%string] = "high"%string
  /\ Spec.severity ["possible_oil_spill"%string] = "high"%string
  /\ Spec.severity ["generic_anomaly"%string] = "low"%string
  /\ Spec.severity ["possible_algal_bloom"%string] = "medium"%string
  /\ Spec.severity ["possible_algal_bloom"%string;
                    "possible_oil_spill"%string] = "high"%string.
Proof. repeat split; vm_compute; reflexivity. Qed.

(** Distinct float constants are distinct values. *)
Lemma float_neq (x y : float) : Prim2SF x <> Prim2SF y -> x <> y.
Proof. intros Hne Heq. apply Hne. by rewrite Heq. Qed.

(** [x < y] entails [x <= y]. *)
Lemma ltb_leb (x y : float) : (x <? y) = true -> (x <=? y) = true.
Proof.
  rewrite ltb_spec, leb_spec. unfold SFltb, SFleb.
  by destruct (SFcompare (Prim2SF x) (Prim2SF y)) as [[]|].
Qed.

(** [max(a, b)] is never below its first argument, when that is a number. *)
Lemma max_floor (a b : float) :
  (a <=? a) = true -> (a <=? Py.max a b) = true.
Proof.
  intros Ha. unfold Py.max, Py.gt. destruct (a <? b) eqn:Hlt; [|done].
  by apply ltb_leb.
Qed.

(** [build_alert] reports the first label and floors the confidence at 0.5. *)
Lemma build_alert_threat_confidence (station : Simulate.Station)
  (ingest_payload : Simulate.IngestPayload) (first : string)
  (rest : list string) :
  let alert := Simulate.build_alert station ingest_payload (first :: rest) in
  Simulate.threat_type alert = first
  /\ Simulate.confidence alert
     = Py.max 0.5
         (Simulate.iforest
            (Simulate.detectors (Simulate.anomaly ingest_payload)))
  /\ (0.5 <=? Simulate.confidence alert) = true.
Proof.
  simpl. split; [done|]. split; [done|]. by apply max_floor.
Qed.

(** [ingest] reports the first label as well, but stores the ensemble score
    as it is, or 0.5 when the scorer raises. *)
Lemma ingest_threat_confidence (st : Backend.state) (rid aid : string)
  (payload : Backend.IngestPayload) (alert_id first : string)
  (rest : list string) :
  snd (Backend.ingest st rid aid payload)
  = Backend.status_alert_created alert_id (first :: rest) ->
  exists row,
    Backend.alerts (fst (Backend.ingest st rid aid payload))
    = Backend.alerts st ++ [row]
    /\ Backend.threat_type row = first
    /\ Backend.confidence row
       = match IFDetector.score (Backend.det_if st)
                 (Backend.metrics payload) with
         | Py.Ok c => c
         | Py.Raise _ => 0.5
         end.
Proof.
  intros Hresp. pose proof (ingest_outcome st rid aid payload) as Hout.
  simpl in Hout. rewrite Hresp in Hout.
  destruct Hout
    as (_ & threat & rest' & row & Hl & Halerts & _ & Hthreat & _ & Hc & _).
  exists row. by simplify_eq.
Qed.

(** C8: on the backend path the confidence of an emitted alert is not floored:
    with no model loaded, the alert for a flagged oil spill is stored with
    confidence 0.0, below the 0.5 that [build_alert] guarantees. *)
Theorem ingest_confidence_not_floored :
  exists row,
    Backend.alerts
      (fst (Backend.ingest Samples.unfit_backend "rid" "aid"
              Samples.flagged_oil_payload))
    = [row]
    /\ Backend.threat_type row = "possible_oil_spill"%string
    /\ Backend.confidence row = 0
    /\ (0.5 <=? Backend.confidence row) = false.
Proof.
  eexists. split; [vm_compute; reflexivity|]. simpl.
  split; [done|]. split; [done|]. vm_compute. reflexivity.
Qed.

(** ** Loading the ensemble artifact *)

(** The unfit detector scores every sample 0.0, and never raises. *)
Lemma score_unfit (metrics : gmap string float) :
  IFDetector.score (IFDetector.Build None) metrics = Py.Ok 0.
Proof. reflexivity. Qed.

(** C9, as stated, fails: with a corrupt artifact at the path, the exception of
    the load leaves the constructor. *)
Lemma init_corrupt_raises :
  IFDetector.init Samples.corrupt_fs (Some "models/iforest.joblib"%string)
  = Py.Raise Py.UnpicklingError
  /\ ~ exists det,
         IFDetector.init Samples.corrupt_fs
           (Some "models/iforest.joblib"%string) = Py.Ok det.
Proof.
  assert (IFDetector.init Samples.corrupt_fs
            (Some "models/iforest.joblib"%string)
          = Py.Raise Py.UnpicklingError) as Heq
    by (vm_compute; reflexivity).
  split; [done|]. intros [det Hdet]. congruence.
Qed.

(** A path that exists is loaded, and what [joblib.load] raises is what the
    constructor raises. *)
Lemma init_corrupt_propagates (fs : gmap string Joblib.file) (path : string) :
  path <> EmptyString -> fs !! path = Some Joblib.Corrupt ->
  IFDetector.init fs (Some path) = Py.Raise Py.UnpicklingError.
Proof.
  intros Hne Hfs.
  unfold IFDetector.init, IFDetector.load, Joblib.exists_path, Joblib.load.
  rewrite Hfs. apply String.eqb_neq in Hne. by rewrite Hne.
Qed.

(** C9, amended: a constructor given no path, an empty path or a path at
    which nothing exists performs no load and yields the unfit detector, whose
    score is 0.0 for every input; given a path that exists, it yields what
    [joblib.load] yields, so that a corrupt artifact raises out of it. *)
Theorem init_missing_or_corrupt (fs : gmap string Joblib.file)
  (model_path : option string) :
  let unfit := IFDetector.Build None in
  IFDetector.init fs model_path
  = match model_path with
    | None => Py.Ok unfit
    | Some path =>
        if String.eqb path EmptyString then Py.Ok unfit
        else
          match fs !! path with
          | None => Py.Ok unfit
          | Some Joblib.Corrupt => Py.Raise Py.UnpicklingError
          | Some (Joblib.Dumped c) => Py.Ok (IFDetector.Build (Some c))
          end
    end
  /\ forall metrics, IFDetector.score unfit metrics = Py.Ok 0.
Proof.
  split; [|apply score_unfit].
  destruct model_path as [path|]; [|done].
  unfold IFDetector.init, IFDetector.load, Joblib.exists_path, Joblib.load.
  destruct (String.eqb path EmptyString); [done|]. simpl.
  by destruct (fs !! path) as [[c|]|].
Qed.

(** With nothing at the default path, the backend starts unfit. *)
Example init_missing_default_path :
  IFDetector.init ∅ (Some "models/iforest.joblib"%string)
  = Py.Ok (IFDetector.Build None).
Proof. reflexivity. Qed.

(** ** The flagged branch of [ingest] *)

(** C10: for a payload whose anomaly field carries a truthy is_anomaly,
    [ingest] leaves both detectors as they were, whatever it ends with: no
    window is updated with the reading.  It answers with the labels of the
    payload, unless an identifier it draws is already stored, which raises
    IntegrityError. *)
Theorem ingest_flagged_frame (st : Backend.state) (rid aid : string)
  (payload : Backend.IngestPayload) :
  Backend.flagged payload = true ->
  let st' := fst (Backend.ingest st rid aid payload) in
  Backend.det_z st' = Backend.det_z st
  /\ Backend.det_if st' = Backend.det_if st
  /\ snd (Backend.ingest st rid aid payload)
     = if Py.contains rid (Backend.reading_ids st)
       then Backend.raised Py.IntegrityError
       else
         match Backend.payload_labels payload with
         | [] => Backend.status_ok []
         | _ :: _ =>
             if Py.contains aid (Backend.alert_ids st)
             then Backend.raised Py.IntegrityError
             else
               Backend.status_alert_created aid
                 (Backend.payload_labels payload)
         end.
Proof.
  intros Hflag. unfold Backend.ingest. rewrite Hflag.
  destruct (Py.contains rid (Backend.reading_ids st)); [done|].
  destruct (Backend.payload_labels payload); [done|].
  by destruct (Py.contains aid (Backend.alert_ids st)).
Qed.

Lemma ingest_flagged_frame_witness :
  let st' :=
    fst (Backend.ingest Samples.unfit_backend "rid" "aid"
           Samples.flagged_oil_payload) in
  Backend.det_z st' = Backend.det_z Samples.unfit_backend
  /\ Backend.det_if st' = Backend.det_if Samples.unfit_backend
  /\ snd (Backend.ingest Samples.unfit_backend "rid" "aid"
            Samples.flagged_oil_payload)
     = Backend.status_alert_created "aid" ["possible_oil_spill"%string].
Proof.
  apply (ingest_flagged_frame Samples.unfit_backend "rid" "aid"
           Samples.flagged_oil_payload).
  reflexivity.
Defined.

(** When the detectors do run, the windows of the station change. *)
Example ingest_unflagged_updates :
  Backend.det_z
    (fst (Backend.ingest Samples.unfit_backend "rid" "aid"
            {| Backend.source := None;
               Backend.timestamp := "t";
               Backend.station_id := "IN-GJ-001";
               Backend.lat := None;
               Backend.lon := None;
               Backend.metrics := ∅;
               Backend.anomaly := None |}))
  <> Backend.det_z Samples.unfit_backend.
Proof.
  intros Heq.
  apply (f_equal (fun d =>
           length (RollingZScoreDetector.buffer d "IN-GJ-001" "rain_mm")))
    in Heq.
  vm_compute in Heq. discriminate.
Qed.

(** ** The user-facing score *)

(** Subtracting the opposite is adding. *)
Lemma sub_opp (x y : float) : x - (- y) = x + y.
Proof.
  apply Prim2SF_inj. rewrite sub_spec, add_spec, opp_spec.
  destruct (Prim2SF x) as [sx| sx| |sx mx ex],
    (Prim2SF y) as [sy| sy| |sy my ey]; try reflexivity;
    try (destruct sx, sy; reflexivity).
Qed.

(** C2, as stated, fails: for a typical point, s(x) = 0.5, the code returns
    0.5 where clamp((0.5 - s)/2, 0, 1) is 0; for a strong outlier, s(x) = 1,
    it returns 0.75 where the formula gives 0. *)
Lemma score_not_user_score :
  IFDetector.score (IFDetector.Build (Some Samples.typical_forest)) ∅
  <> Py.Ok (Spec.user_score Samples.typical_forest ∅)
  /\ IFDetector.score (IFDetector.Build (Some Samples.typical_forest)) ∅
     = Py.Ok 0.5
  /\ Spec.user_score Samples.typical_forest ∅ = 0
  /\ IFDetector.score (IFDetector.Build (Some Samples.outlier_forest)) ∅
     = Py.Ok 0.75
  /\ Spec.user_score Samples.outlier_forest ∅ = 0.
Proof.
  split; [|repeat split; vm_compute; reflexivity].
  intros Heq.
  assert (0.5 = Spec.user_score Samples.typical_forest ∅) as Hval
    by (change (Py.Ok 0.5 = Py.Ok (Spec.user_score Samples.typical_forest ∅))
          in Heq; congruence).
  revert Hval. apply float_neq. vm_compute. discriminate.
Qed.

(** C2, amended: the score of a fitted detector is clamp((0.5 - s')/2, 0, 1)
    with s' = score_samples(x) = -s(x), the opposite of the normalized outlier
    estimate; that is, clamp((0.5 + s(x))/2, 0, 1).  This holds for every
    sample [score_samples] returns on; where it raises, so does [score]. *)
Theorem score_remap (clf : Sklearn.IsolationForest)
  (metrics : gmap string float) :
  let x := map (fun m => Py.get metrics m 0) METRIC_ORDER in
  IFDetector.score (IFDetector.Build (Some clf)) metrics
  = match Sklearn.score_samples clf x with
    | Py.Ok s' => Py.Ok (Numpy.clip ((0.5 - s') / 2) 0 1)
    | Py.Raise e => Py.Raise e
    end
  /\ Sklearn.score_samples clf x
     = (if Sklearn.accepted clf x then Py.Ok (- Sklearn.anomaly_score clf x)
        else Py.Raise Py.ValueError)
  /\ IFDetector.score (IFDetector.Build (Some clf)) metrics
     = if Sklearn.accepted clf x
       then Py.Ok (Numpy.clip ((0.5 + Sklearn.anomaly_score clf x) / 2) 0 1)
       else Py.Raise Py.ValueError.
Proof.
  cbn zeta. split; [done|]. split; [done|].
  unfold IFDetector.score, Sklearn.score_samples. cbn [IFDetector.clf].
  destruct (Sklearn.accepted _ _); [|done].
  by rewrite sub_opp.
Qed.

(** ** Facts on binary64 arithmetic *)

Lemma is_nan_Prim2SF (x : float) : is_nan x = true <-> Prim2SF x = S754_nan.
Proof.
  unfold Prim2SF. destruct (is_nan x); [done|].
  split; [done|].
  destruct (is_zero x); [done|]. destruct (is_infinity x); [done|].
  destruct (Z.frexp x) as [r e]. destruct (shr_fexp _ _ _ _ _) as [s e'].
  by destruct (shr_m s).
Qed.

Lemma iter_pos_invariant {A : Type} (P : A -> Prop) (f : A -> A) :
  (forall x, P x -> P (f x)) -> forall p x, P x -> P (SpecFloat.iter_pos f p x).
Proof.
  intros Hf. induction p as [p IH|p IH|]; intros x Hx; simpl; auto.
Qed.

Lemma shr_1_nonneg (mrs : shr_record) :
  (0 <= shr_m mrs)%Z -> (0 <= shr_m (shr_1 mrs))%Z.
Proof.
  destruct mrs as [m r s]. simpl.
  destruct m as [|[p|p|]|p]; simpl; lia.
Qed.

Lemma shr_fexp_nonneg (m e : Z) (l : location) :
  (0 <= m)%Z -> (0 <= shr_m (fst (shr_fexp prec emax m e l)))%Z.
Proof.
  intros Hm. unfold shr_fexp, shr.
  assert (0 <= shr_m (shr_record_of_loc m l))%Z as H0
    by (by destruct l as [|[]]).
  destruct (_ - _)%Z as [|p|p]; simpl; try done.
  by apply iter_pos_invariant; [apply shr_1_nonneg|].
Qed.

Lemma round_nearest_even_nonneg (m : Z) (l : location) :
  (0 <= m)%Z -> (0 <= round_nearest_even m l)%Z.
Proof.
  intros Hm. unfold round_nearest_even.
  destruct l as [|[]]; try done; [destruct (Z.even m)|]; lia.
Qed.

Lemma binary_round_aux_not_nan (sx : bool) (mx ex : Z) (lx : location) :
  (0 <= mx)%Z -> binary_round_aux prec emax sx mx ex lx <> S754_nan.
Proof.
  intros Hm. unfold binary_round_aux.
  pose proof (shr_fexp_nonneg mx ex lx Hm) as H1.
  destruct (shr_fexp prec emax mx ex lx) as [mrs' e']. simpl in H1.
  pose proof (shr_fexp_nonneg _ e' loc_Exact
                (round_nearest_even_nonneg _ (loc_of_shr_record mrs') H1)) as H2.
  destruct (shr_fexp prec emax _ e' loc_Exact) as [mrs'' e'']. simpl in H2.
  destruct (shr_m mrs''); [done| |lia].
  by destruct (_ <=? _)%Z.
Qed.

Lemma binary_normalize_not_nan (m e : Z) (szero : bool) :
  binary_normalize prec emax m e szero <> S754_nan.
Proof.
  unfold binary_normalize, binary_round.
  destruct m as [|p|p]; [done| |];
    destruct (shl_align _ _ _) as [mz ez]; by apply binary_round_aux_not_nan.
Qed.

(** A finite number minus a number is a number. *)
Lemma SFsub_finite_not_nan (x y : spec_float) :
  (exists s m e, x = S754_finite s m e) -> y <> S754_nan ->
  SFsub prec emax x y <> S754_nan.
Proof.
  intros (s & m & e & ->) Hy.
  destruct y as [sy|sy| |sy my ey]; try done.
  apply binary_normalize_not_nan.
Qed.

Lemma SFdiv_finite_not_nan (x y : spec_float) :
  x <> S754_nan -> (exists s m e, y = S754_finite s m e) ->
  SFdiv prec emax x y <> S754_nan.
Proof.
  intros Hx (s & m & e & ->).
  destruct x as [sx|sx| |sx mx ex]; try done. simpl.
  unfold SFdiv_core_binary.
  set (m' := match _ with Zpos _ => _ | Z0 => _ | Zneg _ => _ end).
  assert (0 <= m')%Z as Hm'.
  { subst m'. destruct (_ - _ - _)%Z; try lia. apply Z.shiftl_nonneg. lia. }
  pose proof (Z.div_pos m' (Z.pos m) Hm' ltac:(lia)) as Hq.
  unfold Z.div in Hq. destruct (Z.div_eucl m' (Z.pos m)) as [q r].
  by apply binary_round_aux_not_nan.
Qed.

(** The remap of a number is a number. *)
Lemma remap_not_nan (s : float) :
  is_nan s = false -> is_nan ((0.5 - s) / 2) = false.
Proof.
  intros Hs. apply not_true_iff_false. apply not_true_iff_false in Hs.
  rewrite is_nan_Prim2SF in *. rewrite div_spec, sub_spec.
  apply SFdiv_finite_not_nan; [|vm_compute; eauto].
  apply SFsub_finite_not_nan; [vm_compute; eauto|done].
Qed.

Lemma opp_not_nan (s : float) : is_nan s = false -> is_nan (- s) = false.
Proof.
  intros Hs. apply not_true_iff_false. apply not_true_iff_false in Hs.
  rewrite is_nan_Prim2SF in *. rewrite opp_spec.
  by destruct (Prim2SF s).
Qed.

(** [np.clip(v, 0, 1)] of a number lies between 0 and 1. *)
Lemma clip_unit_interval (v : float) :
  is_nan v = false ->
  (0 <=? Numpy.clip v 0 1) = true /\ (Numpy.clip v 0 1 <=? 1) = true.
Proof.
  intros Hv. unfold Numpy.clip, Numpy.clip_max, Numpy.clip_min, Py.gt, Py.lt.
  rewrite Hv. destruct (0 <? v) eqn:H0.
  - rewrite Hv. destruct (v <? 1) eqn:H1.
    + split; by apply ltb_leb.
    + split; vm_compute; reflexivity.
  - split; vm_compute; reflexivity.
Qed.

(** C3, as stated, fails: with a fitted forest, a sample the input validation
    of the forest rejects (an infinite feature, or one beyond the range of
    float32) makes [score] raise ValueError: it returns no value. *)
Lemma score_raises_on_rejected_sample :
  let fitted := IFDetector.Build (Some Samples.typical_forest) in
  IFDetector.score fitted Samples.stuck_tide = Py.Raise Py.ValueError
  /\ IFDetector.score fitted Samples.beyond_float32_tide
     = Py.Raise Py.ValueError
  /\ ~ (exists v, IFDetector.score fitted Samples.stuck_tide = Py.Ok v)
  /\ ~ (exists v, IFDetector.score fitted Samples.beyond_float32_tide = Py.Ok v).
Proof.
  cbn zeta.
  assert (IFDetector.score (IFDetector.Build (Some Samples.typical_forest))
            Samples.stuck_tide = Py.Raise Py.ValueError) as Hinf
    by (vm_compute; reflexivity).
  assert (IFDetector.score (IFDetector.Build (Some Samples.typical_forest))
            Samples.beyond_float32_tide = Py.Raise Py.ValueError) as Hbig
    by (vm_compute; reflexivity).
  split; [done|]. split; [done|].
  split; intros [v Hv]; congruence.
Qed.

(** C3, amended: for every sample the input validation of the forest accepts,
    the anomaly score of the forest being a number, [score] returns a value
    within [0, 1]; without a fitted forest it returns exactly 0.0 for every
    sample, accepted or not. *)
Theorem score_unit_interval (self : IFDetector.t)
  (metrics : gmap string float) :
  (forall c,
     IFDetector.clf self = Some c ->
     Sklearn.accepted c (map (fun m => Py.get metrics m 0) METRIC_ORDER)
     = true
     /\ is_nan (Sklearn.anomaly_score c
                  (map (fun m => Py.get metrics m 0) METRIC_ORDER)) = false) ->
  (exists v,
     IFDetector.score self metrics = Py.Ok v
     /\ (0 <=? v) = true /\ (v <=? 1) = true)
  /\ (IFDetector.clf self = None -> IFDetector.score self metrics = Py.Ok 0).
Proof.
  intros Hvalid. unfold IFDetector.score, Sklearn.score_samples.
  destruct (IFDetector.clf self) as [c|].
  - destruct (Hvalid c eq_refl) as [-> Hnum]. split; [|done].
    eexists. split; [reflexivity|].
    apply clip_unit_interval, remap_not_nan. by apply opp_not_nan.
  - split; [|done]. exists 0. repeat split; vm_compute; reflexivity.
Qed.

Lemma score_unit_interval_witness :
  (exists v,
     IFDetector.score (IFDetector.Build (Some Samples.outlier_forest)) ∅
     = Py.Ok v
     /\ (0 <=? v) = true /\ (v <=? 1) = true)
  /\ (IFDetector.clf (IFDetector.Build (Some Samples.outlier_forest)) = None ->
      IFDetector.score (IFDetector.Build (Some Samples.outlier_forest)) ∅
      = Py.Ok 0).
Proof.
  apply (score_unit_interval
           (IFDetector.Build (Some Samples.outlier_forest)) ∅).
  intros c [= <-]. split; vm_compute; reflexivity.
Defined.

(** Without a fitted forest the score is 0.0 whatever the sample. *)
Lemma score_unfit_zero (self : IFDetector.t) (metrics : gmap string float) :
  IFDetector.clf self = None -> IFDetector.score self metrics = Py.Ok 0.
Proof. intros Hnone. unfold IFDetector.score. by rewrite Hnone. Qed.

(** The validation accepts the rows of seven finite features within the range
    of float32, and nothing else. *)
Example accepted_scenarios :
  let accepted := Sklearn.accepted Samples.typical_forest in
  accepted [0; 1.5; -3.4e38; 0; 0; 0; 0] = true
  /\ accepted [0; 1.5; -3.4e38] = false
  /\ accepted [0; 3.4028235677973366e38; 0; 0; 0; 0; 0] = false
  /\ accepted [0; infinity; 0; 0; 0; 0; 0] = false
  /\ accepted [neg_infinity; 0; 0; 0; 0; 0; 0] = false
  /\ accepted [nan; 0; 0; 0; 0; 0; 0] = false.
Proof. repeat split; vm_compute; reflexivity. Qed.

(** A forest fitted on another number of features rejects every sample of the
    scorer. *)
Example score_feature_count_mismatch :
  IFDetector.score
    (IFDetector.Build
       (Some {| Sklearn.n_features_in := 3;
                Sklearn.anomaly_score := fun _ => 0.5 |})) ∅
  = Py.Raise Py.ValueError.
Proof. vm_compute. reflexivity. Qed.

(** ** The rolling windows *)

Section Windows.

Import RollingZScoreDetector Trace.

Implicit Types (self : RollingZScoreDetector.t) (metrics : gmap string float).
Implicit Types (station_id sid m : string) (zscores : gmap string float).

Lemma METRIC_ORDER_NoDup : NoDup METRIC_ORDER.
Proof. apply (bool_decide_unpack _). vm_compute. exact I. Qed.

Lemma buffer_set_buffer self sid m buf sid' m' :
  buffer (set_buffer self sid m buf) sid' m'
  = if decide (sid' = sid /\ m' = m) then buf else buffer self sid' m'.
Proof.
  unfold buffer, set_buffer, Py.get. simpl.
  destruct (decide (sid' = sid)) as [->|Hsid].
  - rewrite lookup_insert_eq.
    destruct (decide (m' = m)) as [->|Hm].
    + rewrite lookup_insert_eq. by rewrite decide_True.
    + rewrite lookup_insert_ne by done. rewrite decide_False by tauto.
      by destruct (buffers self !! sid).
  - rewrite lookup_insert_ne by done. by rewrite decide_False by tauto.
Qed.

Lemma update_metric_unfold sid metrics self zscores m :
  update_metric sid metrics (self, zscores) m
  = (set_buffer self sid m
       (Py.deque_append (window self) (buffer self sid m)
          (Py.get metrics m 0)),
     <[m := emitted self sid metrics m]> zscores).
Proof.
  unfold update_metric, emitted.
  by destruct (length _ <? 10)%nat.
Qed.

(** The loop over a duplicate-free list of metrics: each of them gets its
    value appended once, and its z-score recorded against its own window. *)
Lemma fold_update_metric sid metrics (ms : list string) :
  NoDup ms -> forall self zscores,
  let r := fold_left (update_metric sid metrics) ms (self, zscores) in
  window (fst r) = window self
  /\ (forall sid' m',
        buffer (fst r) sid' m'
        = if decide (sid' = sid /\ m' ∈ ms)
          then Py.deque_append (window self) (buffer self sid m')
                 (Py.get metrics m' 0)
          else buffer self sid' m')
  /\ (forall m',
        snd r !! m'
        = if decide (m' ∈ ms) then Some (emitted self sid metrics m')
          else zscores !! m').
Proof.
  induction 1 as [|m ms Hm Hnodup IH]; intros self zscores.
  - cbn [fold_left fst snd]. split; [done|]. split.
    + intros sid' m'. case_decide as Hin; [|done].
      destruct Hin as [_ Hin]. by apply elem_of_nil in Hin.
    + intros m'. case_decide as Hin; [|done]. by apply elem_of_nil in Hin.
  - cbn [fold_left]. rewrite update_metric_unfold.
    set (self1 := set_buffer self sid m _).
    destruct (IH self1 (<[m := emitted self sid metrics m]> zscores))
      as (Hw & Hbuf & Hz).
    assert (window self1 = window self) as Hw1 by done.
    split; [by rewrite Hw|]. split.
    + intros sid' m'. rewrite Hbuf, Hw1. subst self1.
      rewrite !buffer_set_buffer.
      repeat case_decide; try done; set_solver.
    + intros m'. rewrite Hz. unfold emitted. rewrite Hw1. subst self1.
      rewrite buffer_set_buffer, lookup_insert.
      repeat case_decide; try done; set_solver.
Qed.

(** What one call of [update] does to a window and returns for a metric. *)
Lemma update_spec self sid metrics :
  window (fst (update self sid metrics)) = window self
  /\ (forall sid' m,
        buffer (fst (update self sid metrics)) sid' m
        = if decide (sid' = sid /\ m ∈ METRIC_ORDER)
          then Py.deque_append (window self) (buffer self sid m)
                 (Py.get metrics m 0)
          else buffer self sid' m)
  /\ (forall m,
        snd (update self sid metrics) !! m
        = if decide (m ∈ METRIC_ORDER)
          then Some (emitted self sid metrics m) else None).
Proof.
  destruct (fold_update_metric sid metrics METRIC_ORDER METRIC_ORDER_NoDup
              self ∅) as (Hw & Hbuf & Hz).
  split; [done|]. split; [done|].
  intros m. rewrite <- (lookup_empty (M := gmap string) (A := float) m).
  apply Hz.
Qed.

Lemma run_snoc self (calls : list call) (c : call) :
  run self (calls ++ [c]) = fst (update (run self calls) (fst c) (snd c)).
Proof. unfold run. by rewrite fold_left_app. Qed.

Lemma window_run self (calls : list call) : window (run self calls) = window self.
Proof.
  induction calls as [|c calls IH] using rev_ind; [done|].
  rewrite run_snoc.
  destruct (update_spec (run self calls) (fst c) (snd c)) as (Hw & _ & _).
  by rewrite Hw.
Qed.

Lemma calls_for_snoc sid (calls : list call) (c : call) :
  calls_for sid (calls ++ [c])
  = (calls_for sid calls + if decide (fst c = sid) then 1 else 0)%nat.
Proof.
  unfold calls_for. rewrite filter_app, length_app. f_equal.
  rewrite filter_cons, filter_nil. by case_decide.
Qed.

Lemma supplied_snoc sid m (calls : list call) (c : call) :
  supplied sid m (calls ++ [c])
  = supplied sid m calls
    ++ if decide (fst c = sid) then [Py.get (snd c) m 0] else [].
Proof.
  unfold supplied. rewrite filter_app, map_app. f_equal.
  rewrite filter_cons, filter_nil. by case_decide.
Qed.

Lemma length_supplied sid m (calls : list call) :
  length (supplied sid m calls) = calls_for sid calls.
Proof. unfold supplied, calls_for. by rewrite length_map. Qed.

Lemma length_keep_last {A : Type} (n : nat) (l : list A) :
  length (keep_last n l) = (length l `min` n)%nat.
Proof. unfold keep_last. rewrite length_skipn. lia. Qed.

(** Appending to a deque that holds the last [maxlen] items of a history
    leaves it holding the last [maxlen] items of the longer history: at
    capacity the oldest item goes. *)
Lemma deque_append_keep_last (maxlen : nat) (l : list float) (x : float) :
  Py.deque_append maxlen (keep_last maxlen l) x = keep_last maxlen (l ++ [x]).
Proof.
  unfold Py.deque_append.
  rewrite length_app, length_keep_last. simpl.
  unfold keep_last. rewrite length_app. simpl.
  destruct (Nat.ltb_spec maxlen (length l `min` maxlen + 1)) as [Hfull|Hroom].
  - assert (maxlen <= length l)%nat as Hle by lia.
    replace (length l + 1 - maxlen)%nat with (length l - maxlen + 1)%nat
      by lia.
    rewrite <- drop_drop. rewrite drop_app_le by lia.
    by destruct (drop (length l - maxlen) l ++ [x]).
  - replace (length l - maxlen)%nat with 0%nat by lia.
    replace (length l + 1 - maxlen)%nat with 0%nat by lia.
    reflexivity.
Qed.

(** The window of a recognized metric holds the last [window] values the
    calls for its station supplied. *)
Lemma buffer_run (w : nat) (zt : float) (calls : list call) sid m :
  m ∈ METRIC_ORDER ->
  buffer (run (init w zt) calls) sid m = keep_last w (supplied sid m calls).
Proof.
  intros Hm. induction calls as [|c calls IH] using rev_ind; [done|].
  rewrite run_snoc, supplied_snoc.
  destruct (update_spec (run (init w zt) calls) (fst c) (snd c))
    as (_ & Hbuf & _).
  rewrite Hbuf, window_run. simpl.
  destruct (decide (fst c = sid)) as [<-|Hne].
  - rewrite decide_True by done. rewrite IH.
    apply deque_append_keep_last.
  - rewrite decide_False by naive_solver. by rewrite app_nil_r.
Qed.

Lemma length_buffer_run (w : nat) (zt : float) (calls : list call) sid m :
  m ∈ METRIC_ORDER ->
  length (buffer (run (init w zt) calls) sid m)
  = (calls_for sid calls `min` w)%nat.
Proof.
  intros Hm. by rewrite buffer_run, length_keep_last, length_supplied.
Qed.

(** C5: whatever the calls of [update], the window of a station and
    recognized metric never holds more than [window] values, never shrinks
    from one call to the next, and holds exactly [window] values once the
    station has seen [window] calls: it is the last [window] values supplied,
    the oldest one leaving on an insertion at capacity. *)
Theorem window_length_invariant (w : nat) (zt : float) (calls : list call)
  (c : call) sid m :
  m ∈ METRIC_ORDER ->
  let before := buffer (run (init w zt) calls) sid m in
  let after := buffer (run (init w zt) (calls ++ [c])) sid m in
  (length before <= w)%nat
  /\ (length before <= length after)%nat
  /\ (w <= calls_for sid calls -> length before = w)%nat
  /\ before = keep_last w (supplied sid m calls)
  /\ (fst c = sid -> length before = w ->
      after = tail (before ++ [Py.get (snd c) m 0])).
Proof.
  intros Hm before after.
  pose proof (length_buffer_run w zt calls sid m Hm) as Hlen.
  pose proof (length_buffer_run w zt (calls ++ [c]) sid m Hm) as Hlen'.
  rewrite calls_for_snoc in Hlen'. fold before in Hlen. fold after in Hlen'.
  split; [lia|]. split; [case_decide; lia|]. split; [lia|].
  split; [by apply buffer_run|].
  intros Hc Hfull. subst after. rewrite run_snoc.
  destruct (update_spec (run (init w zt) calls) (fst c) (snd c))
    as (_ & Hbuf & _).
  rewrite Hbuf, window_run. simpl.
  rewrite decide_True by done. rewrite Hc. fold before.
  unfold Py.deque_append. rewrite length_app, Hfull. simpl.
  destruct (Nat.ltb_spec w (w + 1)); [done|lia].
Qed.

(** The z-score a call returns for a recognized metric, in terms of the
    window the call leaves behind. *)
Lemma update_zscore self sid metrics m :
  m ∈ METRIC_ORDER ->
  let buf := buffer (fst (update self sid metrics)) sid m in
  snd (update self sid metrics) !! m
  = Some (if (length buf <? 10)%nat then 0
          else window_zscore buf (Py.get metrics m 0)).
Proof.
  intros Hm buf.
  destruct (update_spec self sid metrics) as (_ & Hbuf & Hz).
  rewrite Hz, decide_True by done. unfold emitted.
  subst buf. rewrite Hbuf. by rewrite decide_True.
Qed.

Lemma length_buffer_update (w : nat) (zt : float) (calls : list call) sid
  metrics m :
  m ∈ METRIC_ORDER ->
  length (buffer (fst (update (run (init w zt) calls) sid metrics)) sid m)
  = ((calls_for sid calls + 1) `min` w)%nat.
Proof.
  intros Hm.
  pose proof (length_buffer_run w zt (calls ++ [(sid, metrics)]) sid m Hm)
    as Hlen.
  rewrite run_snoc, calls_for_snoc in Hlen. simpl in Hlen.
  by rewrite decide_True in Hlen.
Qed.

(** C4: each of the first nine calls of [update] for a station returns
    z-score 0.0 for every recognized metric, whatever values are supplied;
    a call returns the z-score of the value against the window exactly when
    the window, the new value included, holds at least ten values. *)
Theorem warmup_zscore (w : nat) (zt : float) (calls : list call) sid
  metrics m :
  m ∈ METRIC_ORDER ->
  let self := run (init w zt) calls in
  let buf := buffer (fst (update self sid metrics)) sid m in
  let z := snd (update self sid metrics) in
  ((calls_for sid calls < 9)%nat -> z !! m = Some 0)
  /\ length buf = ((calls_for sid calls + 1) `min` w)%nat
  /\ ((length buf < 10)%nat -> z !! m = Some 0)
  /\ ((10 <= length buf)%nat ->
      z !! m = Some (window_zscore buf (Py.get metrics m 0))).
Proof.
  intros Hm self buf z.
  pose proof (update_zscore self sid metrics m Hm) as Hz.
  pose proof (length_buffer_update w zt calls sid metrics m Hm) as Hlen.
  fold self in Hlen. fold buf in Hlen. cbn zeta in Hz. fold buf z in Hz.
  rewrite Hz.
  destruct (Nat.ltb_spec (length buf) 10); repeat split; (done || lia).
Qed.

Lemma window_length_invariant_witness :
  let before :=
    buffer (run (init 60 3) (Samples.steady_rain_calls 3)) "IN-GJ-001"
      "rain_mm" in
  let after :=
    buffer (run (init 60 3)
              (Samples.steady_rain_calls 3
                 ++ [("IN-GJ-001"%string, Samples.steady_rain)]))
      "IN-GJ-001" "rain_mm" in
  (length before <= 60)%nat
  /\ (length before <= length after)%nat
  /\ (60 <= calls_for "IN-GJ-001" (Samples.steady_rain_calls 3) ->
      length before = 60)%nat
  /\ before
     = keep_last 60
         (supplied "IN-GJ-001" "rain_mm" (Samples.steady_rain_calls 3))
  /\ (fst ("IN-GJ-001"%string, Samples.steady_rain) = "IN-GJ-001"%string ->
      length before = 60%nat ->
      after
      = tail (before
                ++ [Py.get (snd ("IN-GJ-001"%string, Samples.steady_rain))
                      "rain_mm" 0])).
Proof.
  apply (window_length_invariant 60 3 (Samples.steady_rain_calls 3)
           ("IN-GJ-001"%string, Samples.steady_rain) "IN-GJ-001" "rain_mm").
  apply (bool_decide_unpack _). vm_compute. exact I.
Defined.

Lemma warmup_zscore_witness :
  let self := run (init 60 3) (Samples.steady_rain_calls 3) in
  let buf :=
    buffer (fst (update self "IN-GJ-001" Samples.steady_rain)) "IN-GJ-001"
      "rain_mm" in
  let z := snd (update self "IN-GJ-001" Samples.steady_rain) in
  ((calls_for "IN-GJ-001" (Samples.steady_rain_calls 3) < 9)%nat ->
   z !! "rain_mm"%string = Some 0)
  /\ length buf
     = ((calls_for "IN-GJ-001" (Samples.steady_rain_calls 3) + 1) `min` 60)%nat
  /\ ((length buf < 10)%nat -> z !! "rain_mm"%string = Some 0)
  /\ ((10 <= length buf)%nat ->
      z !! "rain_mm"%string
      = Some (window_zscore buf (Py.get Samples.steady_rain "rain_mm" 0))).
Proof.
  apply (warmup_zscore 60 3 (Samples.steady_rain_calls 3) "IN-GJ-001"
           Samples.steady_rain "rain_mm").
  apply (bool_decide_unpack _). vm_compute. exact I.
Defined.

(** The window at capacity: the 61st value pushes the first one out. *)
Example window_evicts_oldest :
  let calls :=
    ("IN-GJ-001"%string, Samples.steady_tide) :: Samples.steady_rain_calls 59 in
  buffer (run (init 60 3) calls) "IN-GJ-001" "tide_level_m"
  = 1.5 :: replicate 59 0
  /\ buffer (run (init 60 3)
               (calls ++ [("IN-GJ-001"%string, Samples.steady_rain)]))
       "IN-GJ-001" "tide_level_m"
     = replicate 60 0.
Proof. split; vm_compute; reflexivity. Qed.

End Windows.

(** ** A window that holds one value throughout *)

Lemma digits2_pos_size (p : positive) : digits2_pos p = Pos.size p.
Proof. induction p as [p IH|p IH|]; simpl; by rewrite ?IH. Qed.

(** A positive number with [d] binary digits is at least 2^(d-1). *)
Lemma digits2_pos_lower (p : positive) :
  (2 ^ (Z.pos (digits2_pos p) - 1) <= Z.pos p)%Z.
Proof.
  rewrite digits2_pos_size.
  pose proof (Pos.size_le p) as Hle.
  assert (2 ^ Z.pos (Pos.size p) <= 2 * Z.pos p)%Z as Hz.
  { change 2%Z with (Z.pos 2) at 1. rewrite <- Pos2Z.inj_pow.
    change (2 * Z.pos p)%Z with (Z.pos p~0). by apply Pos2Z.pos_le_pos. }
  replace (Z.pos (Pos.size p)) with (Z.succ (Z.pos (Pos.size p) - 1)) in Hz
    by lia.
  rewrite Z.pow_succ_r in Hz by lia. lia.
Qed.

Lemma shr_1_div2 (mrs : shr_record) :
  (0 <= shr_m mrs)%Z -> shr_m (shr_1 mrs) = (shr_m mrs / 2)%Z.
Proof.
  destruct mrs as [m r s]. cbn [shr_m]. intros Hm.
  destruct m as [|[p|p|]|p]; cbn [shr_1 shr_m]; try lia; try reflexivity.
  - apply Z.div_unique with (r := 1%Z); lia.
  - apply Z.div_unique with (r := 0%Z); lia.
Qed.

Lemma shr_1_div2_nonneg (mrs : shr_record) :
  (0 <= shr_m mrs)%Z -> (0 <= shr_m (shr_1 mrs))%Z.
Proof. intros Hm. rewrite shr_1_div2 by done. by apply Z.div_pos. Qed.

Lemma iter_shr_1_div (p : positive) : forall mrs : shr_record,
  (0 <= shr_m mrs)%Z ->
  (0 <= shr_m (SpecFloat.iter_pos shr_1 p mrs))%Z
  /\ shr_m (SpecFloat.iter_pos shr_1 p mrs) = (shr_m mrs / 2 ^ Z.pos p)%Z.
Proof.
  induction p as [p IH|p IH|]; intros mrs Hm; simpl.
  - pose proof (shr_1_div2_nonneg mrs Hm) as H1.
    destruct (IH (shr_1 mrs) H1) as [H2 E2].
    destruct (IH _ H2) as [H3 E3].
    split; [done|]. rewrite E3, E2, shr_1_div2 by done.
    rewrite !Z.div_div by lia. f_equal.
    replace (Z.pos p~1) with (1 + Z.pos p + Z.pos p)%Z by lia.
    rewrite !Z.pow_add_r, Z.pow_1_r by lia. ring.
  - destruct (IH mrs Hm) as [H2 E2].
    destruct (IH _ H2) as [H3 E3].
    split; [done|]. rewrite E3, E2.
    rewrite !Z.div_div by lia. f_equal.
    replace (Z.pos p~0) with (Z.pos p + Z.pos p)%Z by lia.
    by rewrite Z.pow_add_r by lia.
  - split; [by apply shr_1_div2_nonneg|]. rewrite shr_1_div2 by done.
    by rewrite Z.pow_1_r.
Qed.

(** Truncating a positive mantissa to the precision of the format, from an
    exponent that is not below the smallest one, leaves it positive. *)
Lemma shr_fexp_pos (m e : Z) (l : location) :
  (0 < m)%Z -> (emin <= e)%Z ->
  (0 < shr_m (fst (shr_fexp prec emax m e l)))%Z
  /\ (emin <= snd (shr_fexp prec emax m e l))%Z.
Proof.
  intros Hm He. unfold shr_fexp, shr.
  assert (shr_m (shr_record_of_loc m l) = m) as Hrec by (by destruct l as [|[]]).
  destruct m as [|p|p]; try lia. cbn [Zdigits2].
  pose proof (digits2_pos_lower p) as Hdig.
  set (d := Z.pos (digits2_pos p)) in *.
  assert (0 < d)%Z as Hd by (subst d; lia).
  unfold fexp.
  destruct (_ - e)%Z as [|n|n] eqn:Hn; cbn [fst snd]; rewrite ?Hrec; try lia.
  destruct (iter_shr_1_div n (shr_record_of_loc (Z.pos p) l)) as [_ Hdiv];
    [rewrite Hrec; lia|].
  rewrite Hdiv, Hrec. split; [|lia].
  assert (Z.pos n <= d - 1)%Z as Hle.
  { unfold SpecFloat.emin, prec, emax in *. lia. }
  apply Z.lt_le_trans with (m := 1%Z); [lia|].
  apply Z.div_le_lower_bound; [apply Z.pow_pos_nonneg; lia|].
  rewrite Z.mul_1_r.
  apply Z.le_trans with (m := (2 ^ (d - 1))%Z); [|done].
  apply Z.pow_le_mono_r; lia.
Qed.

Lemma round_nearest_even_pos (m : Z) (l : location) :
  (0 < m)%Z -> (0 < round_nearest_even m l)%Z.
Proof.
  intros Hm. unfold round_nearest_even.
  destruct l as [|[]]; try done; [destruct (Z.even m)|]; lia.
Qed.

(** Rounding a positive mantissa at an exponent that is not below the smallest
    one gives a finite number or an infinity of the given sign. *)
Lemma binary_round_aux_pos (sx : bool) (mx ex : Z) (lx : location) :
  (0 < mx)%Z -> (emin <= ex)%Z ->
  (exists m e, binary_round_aux prec emax sx mx ex lx = S754_finite sx m e)
  \/ binary_round_aux prec emax sx mx ex lx = S754_infinity sx.
Proof.
  intros Hm He. unfold binary_round_aux.
  destruct (shr_fexp_pos mx ex lx Hm He) as [H1 E1].
  destruct (shr_fexp prec emax mx ex lx) as [mrs' e']. cbn [fst snd] in *.
  destruct (shr_fexp_pos _ e' loc_Exact
              (round_nearest_even_pos _ (loc_of_shr_record mrs') H1) E1)
    as [H2 _].
  destruct (shr_fexp prec emax _ e' loc_Exact) as [mrs'' e'']. cbn [fst] in H2.
  destruct (shr_m mrs''); try lia.
  destruct (_ <=? _)%Z; eauto.
Qed.

Lemma binary_normalize_pos (p : positive) :
  (exists m e,
     binary_normalize prec emax (Z.pos p) 0 false = S754_finite false m e)
  \/ binary_normalize prec emax (Z.pos p) 0 false = S754_infinity false.
Proof.
  unfold binary_normalize, binary_round, shl_align.
  set (e' := fexp prec emax (Z.pos (digits2_pos p) + 0)).
  assert (emin <= e')%Z as He' by (subst e'; unfold fexp; lia).
  destruct (e' - 0)%Z as [|n|n]; apply binary_round_aux_pos; try done;
    unfold SpecFloat.emin, prec, emax; lia.
Qed.

(** [float(n)] of a positive count is positive: zero divided by it is zero. *)
Lemma div_zero_float_of_nat (n : nat) :
  (0 < n)%nat -> (Z.of_nat n < 2 ^ 63)%Z ->
  0 / Py.float_of_nat n = 0.
Proof.
  intros Hn Hlt. unfold Py.float_of_nat. apply Prim2SF_inj.
  rewrite div_spec, of_uint63_spec, Uint63.of_Z_spec.
  rewrite Z.mod_small by (change Uint63Axioms.wB with (2 ^ 63)%Z; lia).
  destruct (Z.of_nat n) as [|p|p] eqn:Hp; try lia.
  destruct (binary_normalize_pos p) as [(m & e & ->)| ->]; reflexivity.
Qed.

(** A finite float is a zero or a mantissa and an exponent. *)
Lemma is_finite_Prim2SF (x : float) :
  is_finite x = true ->
  (exists s, Prim2SF x = S754_zero s)
  \/ (exists s m e, Prim2SF x = S754_finite s m e).
Proof.
  unfold is_finite, Prim2SF. intros Hfin.
  apply negb_true_iff, orb_false_iff in Hfin. destruct Hfin as [-> ->].
  destruct (is_zero x); [eauto|].
  destruct (Z.frexp x) as [r e]. destruct (shr_fexp _ _ _ _ _) as [s e'].
  destruct (shr_m s); eauto.
Qed.

(** A finite value minus itself is +0. *)
Lemma sub_diag_finite (x : float) : is_finite x = true -> x - x = 0.
Proof.
  intros Hfin. apply Prim2SF_inj. rewrite sub_spec.
  destruct (is_finite_Prim2SF x Hfin) as [[s ->]|(s & m & e & ->)].
  - by destruct s.
  - unfold SF64sub, SFsub. by rewrite Z.sub_diag.
Qed.

Lemma map_replicate {A B : Type} (f : A -> B) (n : nat) (x : A) :
  map f (replicate n x) = replicate n (f x).
Proof. induction n as [|n IH]; simpl; by rewrite ?IH. Qed.

(** Sums of zeros. *)
Lemma fold_add_zeros (a : list float) :
  Forall (eq 0) a -> fold_left PrimFloat.add a 0 = 0.
Proof.
  induction 1 as [|y a <- _ IH]; [done|]. simpl.
  by change (0 + 0) with 0.
Qed.

Lemma unrolled_sum_zeros (n : nat) : forall a : list float,
  (length a <= n)%nat -> Forall (eq 0) a ->
  Numpy.unrolled_sum (Numpy.Lanes 0 0 0 0 0 0 0 0) a = 0.
Proof.
  induction n as [|n IH]; intros a Hlen Hzero.
  - destruct a; [reflexivity|simpl in Hlen; lia].
  - destruct a as [|a0 [|a1 [|a2 [|a3 [|a4 [|a5 [|a6 [|a7 rest]]]]]]]];
      try (cbn [Numpy.unrolled_sum]; change (Numpy.lanes_reduce _) with 0;
           by apply fold_add_zeros).
    repeat match goal with
           | H : Forall _ (_ :: _) |- _ =>
               apply Forall_cons in H; destruct H as [<- H]
           end.
    cbn [Numpy.unrolled_sum Numpy.r0 Numpy.r1 Numpy.r2 Numpy.r3 Numpy.r4
           Numpy.r5 Numpy.r6 Numpy.r7].
    change (0 + 0) with 0. apply IH; [simpl in Hlen; lia|done].
Qed.

Lemma block_sum_zeros (a : list float) :
  Forall (eq 0) a -> Numpy.block_sum a = 0.
Proof.
  intros Hzero.
  destruct a as [|a0 [|a1 [|a2 [|a3 [|a4 [|a5 [|a6 [|a7 rest]]]]]]]];
    try (cbn [Numpy.block_sum]; by apply fold_add_zeros).
  repeat match goal with
         | H : Forall _ (_ :: _) |- _ =>
             apply Forall_cons in H; destruct H as [<- H]
         end.
  cbn [Numpy.block_sum]. by apply (unrolled_sum_zeros (length rest)).
Qed.

Lemma pairwise_sum_zeros (fuel : nat) : forall a : list float,
  Forall (eq 0) a -> Numpy.pairwise_sum fuel a = 0.
Proof.
  induction fuel as [|fuel IH]; intros a Hzero; cbn [Numpy.pairwise_sum].
  - destruct (_ <=? _)%nat; by apply block_sum_zeros.
  - destruct (_ <=? _)%nat; [by apply block_sum_zeros|].
    rewrite !IH; [reflexivity| |].
    + by apply Forall_drop.
    + by apply Forall_take.
Qed.

Lemma sum_zeros (n : nat) : Numpy.sum (replicate n 0) = 0.
Proof.
  unfold Numpy.sum. rewrite pairwise_sum_zeros; [reflexivity|].
  by apply Forall_replicate.
Qed.

(** Past the warm-up, a window of one finite value whose mean comes out
    exact has standard deviation zero, and the z-score of the value is zero. *)
Lemma window_zscore_constant (n : nat) (x : float) :
  (2 <= n)%nat -> (Z.of_nat n <= 2 ^ 63)%Z ->
  is_finite x = true ->
  Numpy.mean (replicate n x) = x ->
  Numpy.std 1 (replicate n x) = 0
  /\ RollingZScoreDetector.window_zscore (replicate n x) x = 0.
Proof.
  intros Hn Hmax Hfin Hmean.
  assert (Numpy.std 1 (replicate n x) = 0) as Hstd.
  { unfold Numpy.std, Numpy.var. rewrite Hmean, !map_replicate.
    rewrite sub_diag_finite by done. change (0 * 0) with 0.
    rewrite sum_zeros, length_replicate.
    rewrite div_zero_float_of_nat by lia. reflexivity. }
  split; [done|].
  unfold RollingZScoreDetector.window_zscore. rewrite Hstd, Hmean.
  rewrite sub_diag_finite by done. vm_compute. reflexivity.
Qed.


Section ConstantWindow.

Import RollingZScoreDetector Trace.

Lemma supplied_constant sid m (x : float) (calls : list call) :
  (forall c, c ∈ calls -> fst c = sid -> Py.get (snd c) m 0 = x) ->
  supplied sid m calls = replicate (calls_for sid calls) x.
Proof.
  induction calls as [|c calls IH] using rev_ind; intros Hall; [done|].
  rewrite supplied_snoc, calls_for_snoc, IH by set_solver.
  case_decide as Hc.
  - rewrite (Hall c) by set_solver.
    rewrite Nat.add_comm. simpl. symmetry. apply replicate_cons_app.
  - by rewrite app_nil_r, Nat.add_0_r.
Qed.

Lemma keep_last_replicate {A : Type} (n k : nat) (x : A) :
  keep_last n (replicate k x) = replicate (k `min` n) x.
Proof.
  unfold keep_last. rewrite length_replicate, drop_replicate.
  f_equal. lia.
Qed.

(** C6, as stated, fails: a rain gauge that reads 0.3 on each of ten updates
    gets z-score 0.9486..., not 0.0, on the tenth.  The ten values sum to
    2.9999999999999996, so their mean is not 0.3, the sample standard
    deviation is not zero and the epsilon floor is not used. *)
Lemma constant_value_zscore_nonzero :
  snd (update (run (init 60 3) (Samples.steady_rain_calls 9)) "IN-GJ-001"
         Samples.steady_rain) !! "rain_mm"%string
  = Some 0.94868329805051377
  /\ Some 0.94868329805051377 <> Some 0
  /\ Numpy.mean (replicate 10 0.3) = 0.29999999999999993
  /\ Numpy.std 1 (replicate 10 0.3) = 5.851389114294502e-17.
Proof.
  split; [vm_compute; reflexivity|]. split.
  - intros Heq.
    apply (f_equal (fun o => Prim2SF (default 0 o))) in Heq.
    vm_compute in Heq. discriminate.
  - split; vm_compute; reflexivity.
Qed.

(** The order of the additions is not what makes the mean inexact: adding the
    ten values left to right gives the same mean. *)
Example mean_left_to_right :
  fold_left PrimFloat.add (replicate 10 0.3) 0 / 10 = 0.29999999999999993.
Proof. vm_compute. reflexivity. Qed.

(** At the default capacity the effect persists: a gauge that reads 0.1 for
    sixty updates and more keeps getting z-score 0.9916... *)
Example constant_value_zscore_steady_state :
  RollingZScoreDetector.window_zscore (replicate 60 0.1) 0.1
  = 0.99163165204290116.
Proof. vm_compute. reflexivity. Qed.

(** A value that is not finite has no zero z-score either: the mean of a
    window of infinities is infinity, and infinity minus infinity is NaN. *)
Example constant_infinity_zscore_nan :
  Numpy.mean (replicate 10 infinity) = infinity
  /\ snd (update (run (init 60 3) (Samples.stuck_tide_calls 9)) "IN-GJ-001"
            Samples.stuck_tide) !! "tide_level_m"%string
     = Some nan.
Proof. split; vm_compute; reflexivity. Qed.

(** C6, amended: when every update of a station supplies the same finite
    value for a recognized metric, the z-score returned for it is 0.0 provided
    the mean of the window, as computed in binary64, is that value: then the
    sample standard deviation is zero, the epsilon floor is the divisor and
    the numerator is zero. *)
Theorem constant_value_zscore (w : nat) (zt : float) (calls : list call) sid
  metrics m (x : float) :
  m ∈ METRIC_ORDER ->
  (forall c, c ∈ calls -> fst c = sid -> Py.get (snd c) m 0 = x) ->
  Py.get metrics m 0 = x ->
  is_finite x = true ->
  let n := ((calls_for sid calls + 1) `min` w)%nat in
  (Z.of_nat n <= 2 ^ 63)%Z ->
  Numpy.mean (replicate n x) = x ->
  let self := run (init w zt) calls in
  snd (update self sid metrics) !! m = Some 0
  /\ buffer (fst (update self sid metrics)) sid m = replicate n x
  /\ ((10 <= n)%nat ->
      Numpy.std 1 (replicate n x) = 0
      /\ Py.or_float (Numpy.std 1 (replicate n x)) 1e-6 = 1e-6
      /\ x - Numpy.mean (replicate n x) = 0).
Proof.
  intros Hm Hall Hx Hfin n Hmax Hmean self.
  assert (buffer (fst (update self sid metrics)) sid m = replicate n x)
    as Hbuf.
  { subst self. rewrite <- (run_snoc _ calls (sid, metrics)).
    rewrite buffer_run by done.
    rewrite (supplied_constant sid m x).
    - rewrite keep_last_replicate, calls_for_snoc. simpl.
      by rewrite decide_True.
    - intros c Hc Hsid. apply elem_of_app in Hc. destruct Hc as [Hc|Hc].
      + by apply Hall.
      + apply list_elem_of_singleton in Hc. by subst c. }
  pose proof (update_zscore self sid metrics m Hm) as Hz.
  cbn zeta in Hz. rewrite Hbuf, length_replicate in Hz.
  split; [|split; [done|]].
  - rewrite Hz. destruct (Nat.ltb_spec n 10) as [Hlt|Hge]; [done|].
    rewrite Hx.
    by destruct (window_zscore_constant n x) as [_ ->]; [lia|..].
  - intros Hge.
    destruct (window_zscore_constant n x) as [Hstd _]; [lia|done..|].
    rewrite Hstd, Hmean. split; [done|]. split; [reflexivity|].
    by apply sub_diag_finite.
Qed.

Lemma constant_value_zscore_witness :
  let n := ((calls_for "IN-GJ-001" (Samples.steady_tide_calls 11) + 1)
              `min` 60)%nat in
  let self := run (init 60 3) (Samples.steady_tide_calls 11) in
  snd (update self "IN-GJ-001" Samples.steady_tide) !! "tide_level_m"%string
  = Some 0
  /\ buffer (fst (update self "IN-GJ-001" Samples.steady_tide)) "IN-GJ-001"
       "tide_level_m" = replicate n 1.5
  /\ ((10 <= n)%nat ->
      Numpy.std 1 (replicate n 1.5) = 0
      /\ Py.or_float (Numpy.std 1 (replicate n 1.5)) 1e-6 = 1e-6
      /\ 1.5 - Numpy.mean (replicate n 1.5) = 0).
Proof.
  apply (constant_value_zscore 60 3 (Samples.steady_tide_calls 11)
           "IN-GJ-001" Samples.steady_tide "tide_level_m" 1.5).
  - apply (bool_decide_unpack _). vm_compute. exact I.
  - intros c Hc _. apply elem_of_replicate in Hc. destruct Hc as [-> _].
    vm_compute. reflexivity.
  - vm_compute. reflexivity.
  - vm_compute. reflexivity.
  - vm_compute. discriminate.
  - vm_compute. reflexivity.
Defined.

End ConstantWindow.

(** * Further properties of the detectors *)

Section DetectorFrame.

Import RollingZScoreDetector Trace.

Implicit Types (self : RollingZScoreDetector.t) (metrics : gmap string float).
Implicit Types (sid m : string).

Lemma fold_left_ext_elem_of {A B : Type} (f g : A -> B -> A) (l : list B) :
  (forall acc x, x ∈ l -> f acc x = g acc x) ->
  forall acc, fold_left f l acc = fold_left g l acc.
Proof.
  induction l as [|x l IH]; intros Hext acc; [done|]. simpl.
  rewrite Hext by (by left). apply IH. intros acc' y Hy. apply Hext.
  by right.
Qed.

(** X1: [update] reads the metrics only at the seven recognized keys, a
    missing key counting as 0.0: two samples that agree there leave the same
    detector and get the same z-scores, whatever other keys they carry. *)
Theorem update_recognized_metrics_only self sid metrics1 metrics2 :
  (forall m, m ∈ METRIC_ORDER -> Py.get metrics1 m 0 = Py.get metrics2 m 0) ->
  update self sid metrics1 = update self sid metrics2.
Proof.
  intros Hagree. unfold update. apply fold_left_ext_elem_of.
  intros [d zs] m Hm. unfold update_metric. by rewrite (Hagree m Hm).
Qed.

Lemma update_recognized_metrics_only_witness :
  update (init 60 3) "IN-GJ-001" Samples.steady_rain
  = update (init 60 3) "IN-GJ-001" Samples.steady_rain_salinity.
Proof.
  apply (update_recognized_metrics_only (init 60 3) "IN-GJ-001"
           Samples.steady_rain Samples.steady_rain_salinity).
  intros m Hm. unfold METRIC_ORDER in Hm.
  repeat (apply elem_of_cons in Hm as [->|Hm]; [vm_compute; reflexivity|]).
  by apply elem_of_nil in Hm.
Defined.

(** X2: the dictionary [update] returns has exactly the seven recognized
    metrics as its keys, whatever the sample holds. *)
Theorem update_zscores_keys self sid metrics :
  dom (snd (update self sid metrics)) = list_to_set METRIC_ORDER.
Proof.
  destruct (update_spec self sid metrics) as (_ & _ & Hz).
  apply set_eq. intros m. rewrite elem_of_dom, elem_of_list_to_set, Hz.
  case_decide; [|split; [by intros [? ?]|done]].
  split; [done|]. intros _. eauto.
Qed.

(** X3: a call for one station leaves the windows of every other station as
    they were, and no call creates a window for a key outside the recognized
    metrics. *)
Theorem update_frame self sid metrics sid' m :
  sid' <> sid \/ m ∉ METRIC_ORDER ->
  buffer (fst (update self sid metrics)) sid' m = buffer self sid' m.
Proof.
  intros Hout. destruct (update_spec self sid metrics) as (_ & Hbuf & _).
  rewrite Hbuf. rewrite decide_False; [done|]. tauto.
Qed.

Lemma update_frame_witness :
  buffer (fst (update (run (init 60 3) Samples.interleaved_calls)
                 "IN-GJ-001" Samples.steady_rain)) "IN-MH-002" "tide_level_m"
  = buffer (run (init 60 3) Samples.interleaved_calls) "IN-MH-002"
      "tide_level_m".
Proof.
  apply (update_frame (run (init 60 3) Samples.interleaved_calls) "IN-GJ-001"
           Samples.steady_rain "IN-MH-002" "tide_level_m").
  left. discriminate.
Defined.

Lemma z_thresh_update self sid metrics :
  z_thresh (fst (update self sid metrics)) = z_thresh self.
Proof.
  unfold update.
  assert (forall ms acc,
            z_thresh (fst (fold_left (update_metric sid metrics) ms acc))
            = z_thresh (fst acc)) as Hfold.
  { induction ms as [|m ms IH]; intros [d zs]; [done|]. cbn [fold_left].
    rewrite IH, update_metric_unfold. done. }
  apply Hfold.
Qed.

Lemma z_thresh_run self (calls : list call) :
  z_thresh (run self calls) = z_thresh self.
Proof.
  induction calls as [|c calls IH] using rev_ind; [done|].
  by rewrite run_snoc, z_thresh_update.
Qed.

(** X4: the z-scores a station gets depend on the calls made for that station
    only: two histories with the same calls for the station, however they are
    interleaved with calls for other stations, give the same z-scores. *)
Theorem station_independence (w : nat) (zt : float)
  (calls1 calls2 : list call) sid metrics :
  filter (fun c => fst c = sid) calls1 = filter (fun c => fst c = sid) calls2 ->
  snd (update (run (init w zt) calls1) sid metrics)
  = snd (update (run (init w zt) calls2) sid metrics).
Proof.
  intros Hsame. apply map_eq. intros m.
  destruct (update_spec (run (init w zt) calls1) sid metrics) as (_ & _ & ->).
  destruct (update_spec (run (init w zt) calls2) sid metrics) as (_ & _ & ->).
  case_decide as Hm; [|done].
  unfold emitted. rewrite !window_run, !buffer_run by done.
  unfold supplied. by rewrite Hsame.
Qed.

Lemma station_independence_witness :
  snd (update (run (init 60 3) Samples.interleaved_calls) "IN-GJ-001"
         Samples.steady_rain)
  = snd (update (run (init 60 3) (Samples.steady_rain_calls 3)) "IN-GJ-001"
           Samples.steady_rain).
Proof.
  apply (station_independence 60 3 Samples.interleaved_calls
           (Samples.steady_rain_calls 3) "IN-GJ-001" Samples.steady_rain).
  vm_compute. reflexivity.
Defined.

Lemma is_anomaly_false_iff self (zscores : gmap string float) :
  is_anomaly self zscores = false <->
  forall m v, zscores !! m = Some v -> (z_thresh self <? abs v) = false.
Proof.
  unfold is_anomaly, Py.gt. rewrite <- not_true_iff_false, existsb_exists.
  split.
  - intros Hnone m v Hmv. apply not_true_iff_false. intros Hgt.
    apply Hnone. exists v. split; [|done].
    apply in_map_iff. exists (m, v). split; [done|].
    apply list_elem_of_In. by apply elem_of_map_to_list.
  - intros Hall (v & Hin & Hgt).
    apply in_map_iff in Hin. destruct Hin as ([m v'] & Heq & Hin).
    simpl in Heq. subst v'.
    apply list_elem_of_In, elem_of_map_to_list in Hin.
    rewrite (Hall m v Hin) in Hgt. discriminate.
Qed.

(** X5: with a threshold that is not negative, [is_anomaly] is false on the
    z-scores of each of a station's first nine calls, whatever values the
    calls supply. *)
Theorem warmup_not_anomalous (w : nat) (zt : float) (calls : list call) sid
  metrics :
  (zt <? 0) = false ->
  (calls_for sid calls < 9)%nat ->
  let self := run (init w zt) calls in
  is_anomaly (fst (update self sid metrics)) (snd (update self sid metrics))
  = false.
Proof.
  intros Hzt Hfew self. apply is_anomaly_false_iff. intros m v Hmv.
  rewrite z_thresh_update. subst self. rewrite z_thresh_run. simpl.
  destruct (update_spec (run (init w zt) calls) sid metrics) as (_ & _ & Hz).
  rewrite Hz in Hmv. case_decide as Hm; [|done].
  pose proof (update_zscore (run (init w zt) calls) sid metrics m Hm) as Hz'.
  pose proof (length_buffer_update w zt calls sid metrics m Hm) as Hlen.
  cbn zeta in Hz'. rewrite Hz, decide_True in Hz' by done.
  destruct (Nat.ltb_spec
              (length (buffer (fst (update (run (init w zt) calls) sid
                                      metrics)) sid m)) 10) as [_|Hge];
    [|lia].
  rewrite Hz' in Hmv. injection Hmv as <-. exact Hzt.
Qed.

Lemma warmup_not_anomalous_witness :
  let self := run (init 60 3) Samples.interleaved_calls in
  is_anomaly (fst (update self "IN-GJ-001" Samples.stuck_tide))
    (snd (update self "IN-GJ-001" Samples.stuck_tide))
  = false.
Proof.
  apply (warmup_not_anomalous 60 3 Samples.interleaved_calls "IN-GJ-001"
           Samples.stuck_tide).
  - vm_compute. reflexivity.
  - vm_compute. lia.
Defined.

End DetectorFrame.

(** * Further properties of the labeller *)

Section Labeller.

Import RollingZScoreDetector Trace.

(** X6: the labels come without repetition and in the order of the rules,
    and generic_anomaly is never returned together with another label. *)
Theorem label_threat_shape (metrics z : gmap string float) (if_score : float) :
  let labels := label_threat metrics z if_score in
  NoDup labels
  /\ labels
     = List.filter (fun l => Py.contains l labels) Samples.label_order
  /\ ("generic_anomaly"%string ∈ labels ->
      labels = ["generic_anomaly"%string])
  /\ (length labels <= 3)%nat.
Proof.
  intros labels. subst labels. rewrite label_threat_unfold.
  unfold Spec.label, Spec.generic_rule.
  destruct (Spec.flooding_rule z), (Spec.algal_bloom_rule z),
    (Spec.oil_spill_rule metrics z), (0.75 <? if_score);
    (split; [apply (bool_decide_unpack _); vm_compute; exact I|]);
    (split; [vm_compute; reflexivity|]);
    (split; [|vm_compute; lia]);
    intros Hin; try reflexivity;
    apply (bool_decide_pack _) in Hin; vm_compute in Hin; contradiction.
Qed.

(** X7: the labeller reads the z-scores of six metrics, the raw
    oil_slick_score and the ensemble score, and nothing else: the z-score of
    rain_mm and the other raw metrics have no influence on the labels. *)
Theorem label_threat_inputs (metrics1 metrics2 z1 z2 : gmap string float)
  (if_score : float) :
  (forall k, k ∈ Samples.labeller_z_keys -> Py.get z1 k 0 = Py.get z2 k 0) ->
  Py.get metrics1 "oil_slick_score" 0 = Py.get metrics2 "oil_slick_score" 0 ->
  label_threat metrics1 z1 if_score = label_threat metrics2 z2 if_score.
Proof.
  intros Hz Hoil. unfold label_threat. rewrite Hoil.
  rewrite !(Hz "tide_level_m"%string), !(Hz "wave_height_m"%string),
    !(Hz "wind_speed_ms"%string), !(Hz "chlorophyll_mg_m3"%string),
    !(Hz "turbidity_NTU"%string), !(Hz "oil_slick_score"%string);
    try (apply (bool_decide_unpack _); vm_compute; exact I).
  reflexivity.
Qed.

Lemma label_threat_inputs_witness :
  label_threat ∅ Samples.storm_z 0.2
  = label_threat Samples.storm_metrics_rain Samples.storm_z_rain 0.2.
Proof.
  apply (label_threat_inputs ∅ Samples.storm_metrics_rain Samples.storm_z
           Samples.storm_z_rain 0.2).
  - intros k Hk. unfold Samples.labeller_z_keys in Hk.
    repeat (apply elem_of_cons in Hk as [->|Hk]; [vm_compute; reflexivity|]).
    by apply elem_of_nil in Hk.
  - vm_compute. reflexivity.
Defined.

(** The z-scores of a call in the warm-up read 0.0 at every key. *)
Lemma warmup_zscores_get (w : nat) (zt : float) (calls : list call)
  (sid : string) (metrics : gmap string float) (k : string) :
  (calls_for sid calls < 9)%nat ->
  Py.get (snd (update (run (init w zt) calls) sid metrics)) k 0 = 0.
Proof.
  intros Hfew. unfold Py.get.
  destruct (update_spec (run (init w zt) calls) sid metrics) as (_ & _ & Hz).
  rewrite Hz. case_decide as Hk; [|done].
  pose proof (update_zscore (run (init w zt) calls) sid metrics k Hk) as Hz'.
  pose proof (length_buffer_update w zt calls sid metrics k Hk) as Hlen.
  cbn zeta in Hz'. rewrite Hz, decide_True in Hz' by done.
  destruct (Nat.ltb_spec
              (length (buffer (fst (update (run (init w zt) calls) sid
                                      metrics)) sid k)) 10) as [_|Hge];
    [|lia].
  by injection Hz' as ->.
Qed.

(** X8: during the first nine calls of a station the z-score rules cannot
    fire: the labels are possible_oil_spill when the raw oil_slick_score is
    above 0.4, else generic_anomaly when the ensemble score is above 0.75,
    else none. *)
Theorem warmup_labels (w : nat) (zt : float) (calls : list call)
  (sid : string) (metrics : gmap string float) (if_score : float) :
  (calls_for sid calls < 9)%nat ->
  label_threat metrics (snd (update (run (init w zt) calls) sid metrics))
    if_score
  = if 0.4 <? Py.get metrics "oil_slick_score" 0
    then ["possible_oil_spill"%string]
    else if 0.75 <? if_score then ["generic_anomaly"%string] else [].
Proof.
  intros Hfew. unfold label_threat, Py.gt.
  rewrite !warmup_zscores_get by done.
  change (2.5 <? abs 0) with false. change (3 <? abs 0) with false.
  change (3.5 <? abs 0) with false. cbn [andb orb].
  destruct (0.4 <? Py.get metrics "oil_slick_score" 0); simpl.
  - by rewrite andb_false_r.
  - by destruct (0.75 <? if_score).
Qed.

Lemma warmup_labels_witness :
  label_threat Samples.stuck_tide
    (snd (update (run (init 60 3) Samples.interleaved_calls) "IN-GJ-001"
            Samples.stuck_tide)) 0.2
  = if 0.4 <? Py.get Samples.stuck_tide "oil_slick_score" 0
    then ["possible_oil_spill"%string]
    else if 0.75 <? 0.2 then ["generic_anomaly"%string] else [].
Proof.
  apply (warmup_labels 60 3 Samples.interleaved_calls "IN-GJ-001"
           Samples.stuck_tide 0.2).
  vm_compute. lia.
Defined.

(** X9: for the labels the labeller produces, the alert is of low severity
    exactly when there is no label or generic_anomaly alone, of medium
    severity exactly when possible_algal_bloom is the only label, and of high
    severity exactly when possible_flooding or possible_oil_spill is among
    them. *)
Theorem severity_of_produced_labels (metrics z : gmap string float)
  (if_score : float) (station : Simulate.Station)
  (ingest_payload : Simulate.IngestPayload) :
  let labels := label_threat metrics z if_score in
  let sev :=
    Simulate.severity (Simulate.build_alert station ingest_payload labels) in
  (sev = "low"%string <->
   labels = [] \/ labels = ["generic_anomaly"%string])
  /\ (sev = "medium"%string <-> labels = ["possible_algal_bloom"%string])
  /\ (sev = "high"%string <->
      Spec.flooding_rule z = true \/ Spec.oil_spill_rule metrics z = true).
Proof.
  intros labels sev. subst sev labels. rewrite label_threat_unfold.
  unfold Spec.label, Spec.generic_rule.
  destruct (Spec.flooding_rule z), (Spec.algal_bloom_rule z),
    (Spec.oil_spill_rule metrics z), (0.75 <? if_score);
    vm_compute; repeat split; intros; try done;
    repeat match goal with
           | H : _ \/ _ |- _ => destruct H
           end;
    try done; auto.
Qed.

End Labeller.

(** * Saving and loading the ensemble *)

Section Artifact.

(** X10: a fitted detector saved at a non-empty path is what a constructor
    given that path builds, with the same score for every sample; the save
    leaves every other path as it was. *)
Theorem save_init_round_trip (fs : gmap string Joblib.file)
  (self : IFDetector.t) (c : Sklearn.IsolationForest) (path : string) :
  path <> EmptyString ->
  IFDetector.clf self = Some c ->
  let fs' := IFDetector.save fs self path in
  IFDetector.init fs' (Some path) = Py.Ok self
  /\ IFDetector.load fs' (IFDetector.Build None) path = Py.Ok self
  /\ (forall other, other <> path -> fs' !! other = fs !! other).
Proof.
  intros Hpath Hclf fs'. destruct self as [clf]. simpl in Hclf. subst clf.
  subst fs'. unfold IFDetector.save. cbn [IFDetector.clf].
  assert (IFDetector.load (<[path := Joblib.Dumped c]> fs)
            (IFDetector.Build None) path
          = Py.Ok (IFDetector.Build (Some c))) as Hload.
  { unfold IFDetector.load, Joblib.load. by rewrite lookup_insert_eq. }
  split; [|split; [done|]].
  - unfold IFDetector.init, Joblib.exists_path.
    apply String.eqb_neq in Hpath. rewrite Hpath, lookup_insert_eq.
    exact Hload.
  - intros other Hother. by rewrite lookup_insert_ne.
Qed.

Lemma save_init_round_trip_witness :
  let fs' :=
    IFDetector.save Samples.corrupt_fs
      (IFDetector.Build (Some Samples.outlier_forest))
      "models/iforest.joblib" in
  IFDetector.init fs' (Some "models/iforest.joblib"%string)
  = Py.Ok (IFDetector.Build (Some Samples.outlier_forest))
  /\ IFDetector.load fs' (IFDetector.Build None) "models/iforest.joblib"
     = Py.Ok (IFDetector.Build (Some Samples.outlier_forest))
  /\ (forall other,
        other <> "models/iforest.joblib"%string ->
        fs' !! other = Samples.corrupt_fs !! other).
Proof.
  apply (save_init_round_trip Samples.corrupt_fs
           (IFDetector.Build (Some Samples.outlier_forest))
           Samples.outlier_forest "models/iforest.joblib").
  - discriminate.
  - reflexivity.
Defined.

(** Saving an unfit detector writes nothing: the file system is
    unchanged, so an artifact already at the path stays and is what a later
    constructor loads. *)
Theorem save_unfit_keeps_artifact (fs : gmap string Joblib.file)
  (self : IFDetector.t) (path : string) (model_path : option string) :
  IFDetector.clf self = None ->
  IFDetector.save fs self path = fs
  /\ IFDetector.init (IFDetector.save fs self path) model_path
     = IFDetector.init fs model_path.
Proof.
  intros Hclf. unfold IFDetector.save. by rewrite Hclf.
Qed.

Lemma save_unfit_keeps_artifact_witness :
  IFDetector.save Samples.typical_fs (IFDetector.Build None)
    "models/iforest.joblib" = Samples.typical_fs
  /\ IFDetector.init
       (IFDetector.save Samples.typical_fs (IFDetector.Build None)
          "models/iforest.joblib") (Some "models/iforest.joblib"%string)
     = IFDetector.init Samples.typical_fs
         (Some "models/iforest.joblib"%string).
Proof.
  apply (save_unfit_keeps_artifact Samples.typical_fs (IFDetector.Build None)
           "models/iforest.joblib" (Some "models/iforest.joblib"%string)).
  reflexivity.
Defined.

(** X12: the score reads the sample only at the seven recognized keys, a
    missing key counting as 0.0, and hands them to the forest in the order of
    [METRIC_ORDER]. *)
Theorem score_recognized_metrics_only (self : IFDetector.t)
  (metrics1 metrics2 : gmap string float) :
  (forall m, m ∈ METRIC_ORDER -> Py.get metrics1 m 0 = Py.get metrics2 m 0) ->
  IFDetector.score self metrics1 = IFDetector.score self metrics2.
Proof.
  intros Hagree. unfold IFDetector.score.
  destruct (IFDetector.clf self) as [c|]; [|done].
  replace (map (fun m => Py.get metrics1 m 0) METRIC_ORDER)
    with (map (fun m => Py.get metrics2 m 0) METRIC_ORDER); [done|].
  apply map_ext_in. intros m Hm. symmetry. apply Hagree.
  by apply list_elem_of_In.
Qed.

Lemma score_recognized_metrics_only_witness :
  IFDetector.score (IFDetector.Build (Some Samples.oil_forest))
    Samples.steady_rain
  = IFDetector.score (IFDetector.Build (Some Samples.oil_forest))
      Samples.steady_rain_salinity.
Proof.
  apply (score_recognized_metrics_only
           (IFDetector.Build (Some Samples.oil_forest)) Samples.steady_rain
           Samples.steady_rain_salinity).
  intros m Hm. unfold METRIC_ORDER in Hm.
  repeat (apply elem_of_cons in Hm as [->|Hm]; [vm_compute; reflexivity|]).
  by apply elem_of_nil in Hm.
Defined.

End Artifact.

(** * Further properties of the backend *)

Section BackendTables.

Import RollingZScoreDetector.

(** The case analysis of [ingest]: the reading's key, the flag, the outcome of
    the detectors, the labels and the alert's key. *)
Ltac ingest_cases st rid aid payload :=
  unfold Backend.ingest;
  destruct (Py.contains rid (Backend.reading_ids st)) eqn:Hrid;
  [| destruct (Backend.flagged payload) eqn:Hflag;
     [ destruct (Backend.payload_labels payload) as [|threat rest] eqn:Hlabels;
       [| destruct (Py.contains aid (Backend.alert_ids st)) eqn:Haid ]
     | destruct (RollingZScoreDetector.update (Backend.det_z st)
                   (Backend.station_id payload) (Backend.metrics payload))
         as [dz z] eqn:Hupd;
       destruct (IFDetector.score (Backend.det_if st)
                   (Backend.metrics payload)) as [if_score|e] eqn:Hscore;
       [ destruct (label_threat (Backend.metrics payload) z if_score)
           as [|threat rest] eqn:Hlabels;
         [| destruct (Py.contains aid (Backend.alert_ids st)) eqn:Haid ]
       |] ] ].

Lemma contains_false (s : string) (l : list string) :
  Py.contains s l = false <-> s ∉ l.
Proof. rewrite <- contains_elem_of. by destruct (Py.contains s l). Qed.

Lemma NoDup_snoc_fresh (s : string) (l : list string) :
  Py.contains s l = false -> NoDup l -> NoDup (l ++ [s]).
Proof.
  intros Hfresh Hl. apply contains_false in Hfresh.
  apply NoDup_app. split; [done|]. split; [|apply NoDup_singleton].
  intros x Hx Hin. apply list_elem_of_singleton in Hin. by subst x.
Qed.

(** X13: a call of [ingest] that draws an identifier sensor_readings already
    holds raises IntegrityError and changes nothing; any other call appends
    exactly one row to sensor_readings, holding the payload under the drawn
    identifier.  No call touches the ensemble.  A call appends at most one
    alert: none when it answers ok (the labels are then empty) or raises, one
    unacknowledged row for the payload's station and timestamp, under an
    identifier the table did not hold, when it answers alert_created.  The
    identifiers of either table stay pairwise distinct. *)
Theorem ingest_appends (st : Backend.state) (rid aid : string)
  (payload : Backend.IngestPayload) :
  let st' := fst (Backend.ingest st rid aid payload) in
  (if Py.contains rid (Backend.reading_ids st)
   then
     st' = st
     /\ snd (Backend.ingest st rid aid payload)
        = Backend.raised Py.IntegrityError
   else
     Backend.sensor_readings st'
     = Backend.sensor_readings st
       ++ [ {| Backend.reading_id := rid;
               Backend.reading_station_id := Backend.station_id payload;
               Backend.reading_timestamp := Backend.timestamp payload;
               Backend.reading_payload := payload |} ])
  /\ Backend.det_if st' = Backend.det_if st
  /\ match snd (Backend.ingest st rid aid payload) with
     | Backend.status_ok labels =>
         labels = [] /\ Backend.alerts st' = Backend.alerts st
     | Backend.status_alert_created alert_id labels =>
         alert_id = aid
         /\ Py.contains aid (Backend.alert_ids st) = false
         /\ exists row,
              Backend.alerts st' = Backend.alerts st ++ [row]
              /\ Backend.alert_id row = aid
              /\ Backend.alert_station_id row = Backend.station_id payload
              /\ Backend.alert_timestamp row = Backend.timestamp payload
              /\ Backend.alert_payload row = payload
              /\ Backend.acknowledged row = false
              /\ Backend.threat_type row ∈ labels
     | Backend.raised _ => Backend.alerts st' = Backend.alerts st
     end
  /\ (NoDup (Backend.reading_ids st) -> NoDup (Backend.reading_ids st'))
  /\ (NoDup (Backend.alert_ids st) -> NoDup (Backend.alert_ids st')).
Proof.
  cbn zeta.
  assert (forall dz alerts,
    Backend.reading_ids
      {| Backend.det_z := dz;
         Backend.det_if := Backend.det_if st;
         Backend.sensor_readings :=
           Backend.sensor_readings st
             ++ [ {| Backend.reading_id := rid;
                     Backend.reading_station_id := Backend.station_id payload;
                     Backend.reading_timestamp := Backend.timestamp payload;
                     Backend.reading_payload := payload |} ];
         Backend.alerts := alerts |}
    = Backend.reading_ids st ++ [rid]) as Hids
    by (intros; unfold Backend.reading_ids; cbn; by rewrite map_app).
  ingest_cases st rid aid payload; cbn [fst snd];
    try (split; [done|]; split; [done|]; split; [done|];
         rewrite Hids; split; [by apply NoDup_snoc_fresh|done]).
  - done.
  - split; [done|]. split; [done|]. split.
    + split; [done|]. split; [done|]. eexists. repeat split. by left.
    + rewrite Hids. split; [by apply NoDup_snoc_fresh|].
      unfold Backend.alert_ids. cbn. rewrite map_app. cbn.
      by apply NoDup_snoc_fresh.
  - split; [done|]. split; [done|]. split.
    + split; [done|]. split; [done|]. eexists. repeat split. by left.
    + rewrite Hids. split; [by apply NoDup_snoc_fresh|].
      unfold Backend.alert_ids. cbn. rewrite map_app. cbn.
      by apply NoDup_snoc_fresh.
Qed.

(** Drawing a stored identifier: the second of two calls of [ingest] under one
    reading identifier raises and stores nothing. *)
Example ingest_duplicate_reading_id :
  let st1 :=
    fst (Backend.ingest Samples.unfit_backend "r1" "a1"
           Samples.flagged_oil_payload) in
  Backend.ingest st1 "r1" "a2" Samples.oil_payload
  = (st1, Backend.raised Py.IntegrityError).
Proof. vm_compute. reflexivity. Qed.

(** X14: a payload that is not flagged, stored under a fresh identifier, is
    run through the detectors: the rolling detector of the backend becomes
    what [update] leaves for the payload's station and metrics, also when the
    scorer or the INSERT of the alert raises afterwards; the windows of the
    other stations stay as they were; the labels answered are those of
    [label_threat] on the z-scores of that update and the ensemble score.
    Under an identifier sensor_readings holds, nothing is run. *)
Theorem ingest_unflagged_detects (st : Backend.state) (rid aid : string)
  (payload : Backend.IngestPayload) :
  Backend.flagged payload = false ->
  let st' := fst (Backend.ingest st rid aid payload) in
  let upd :=
    update (Backend.det_z st) (Backend.station_id payload)
      (Backend.metrics payload) in
  (forall sid m,
     sid <> Backend.station_id payload ->
     buffer (Backend.det_z st') sid m = buffer (Backend.det_z st) sid m)
  /\ if Py.contains rid (Backend.reading_ids st)
     then
       Backend.det_z st' = Backend.det_z st
       /\ snd (Backend.ingest st rid aid payload)
          = Backend.raised Py.IntegrityError
     else
       Backend.det_z st' = fst upd
       /\ snd (Backend.ingest st rid aid payload)
          = match IFDetector.score (Backend.det_if st)
                    (Backend.metrics payload) with
            | Py.Raise e => Backend.raised e
            | Py.Ok if_score =>
                match label_threat (Backend.metrics payload) (snd upd)
                        if_score with
                | [] => Backend.status_ok []
                | threat :: rest =>
                    if Py.contains aid (Backend.alert_ids st)
                    then Backend.raised Py.IntegrityError
                    else Backend.status_alert_created aid (threat :: rest)
                end
            end.
Proof.
  intros Hflag st' upd.
  assert (if Py.contains rid (Backend.reading_ids st)
          then Backend.det_z st' = Backend.det_z st
          else Backend.det_z st' = fst upd) as Hdz.
  { subst st' upd. unfold Backend.ingest. rewrite Hflag.
    destruct (Py.contains rid (Backend.reading_ids st)); [done|].
    destruct (update _ _ _) as [dz z].
    destruct (IFDetector.score _ _) as [if_score|e]; [|done].
    destruct (label_threat _ _ _) as [|threat rest]; [done|].
    by destruct (Py.contains aid (Backend.alert_ids st)). }
  pose proof (ingest_detected_labels st rid aid payload Hflag) as Hresp.
  cbn zeta in Hresp. fold upd in Hresp.
  split.
  - intros sid m Hsid.
    destruct (Py.contains rid (Backend.reading_ids st)); rewrite Hdz; [done|].
    subst upd.
    destruct (update_spec (Backend.det_z st) (Backend.station_id payload)
                (Backend.metrics payload)) as (_ & Hbuf & _).
    rewrite Hbuf. rewrite decide_False; [done|]. tauto.
  - by destruct (Py.contains rid (Backend.reading_ids st)).
Qed.

Lemma ingest_unflagged_detects_witness :
  let st' :=
    fst (Backend.ingest Samples.unfit_backend "r2" "a2" Samples.oil_payload) in
  let upd :=
    update (Backend.det_z Samples.unfit_backend)
      (Backend.station_id Samples.oil_payload)
      (Backend.metrics Samples.oil_payload) in
  (forall sid m,
     sid <> Backend.station_id Samples.oil_payload ->
     buffer (Backend.det_z st') sid m
     = buffer (Backend.det_z Samples.unfit_backend) sid m)
  /\ Backend.det_z st' = fst upd
  /\ snd (Backend.ingest Samples.unfit_backend "r2" "a2" Samples.oil_payload)
     = Backend.status_alert_created "a2" ["possible_oil_spill"%string].
Proof.
  apply (ingest_unflagged_detects Samples.unfit_backend "r2" "a2"
           Samples.oil_payload).
  reflexivity.
Defined.

Lemma rowcount_zero (alert_id : string) (rows : list Backend.alert_row) :
  Backend.rowcount alert_id rows = 0%nat <->
  forall row, row ∈ rows -> Backend.alert_id row <> alert_id.
Proof.
  unfold Backend.rowcount. induction rows as [|r rows IH]; simpl.
  - split; [|done]. intros _ row Hrow. by apply elem_of_nil in Hrow.
  - destruct (String.eqb (Backend.alert_id r) alert_id) eqn:Heq; simpl.
    + split; [done|]. intros Hall. apply String.eqb_eq in Heq.
      exfalso. apply (Hall r); [by left|done].
    + rewrite IH. apply String.eqb_neq in Heq. split.
      * intros Hall row Hrow. apply elem_of_cons in Hrow as [->|Hrow]; auto.
      * intros Hall row Hrow. apply Hall. by right.
Qed.

Lemma acknowledge_other (alert_id : string) (row : Backend.alert_row) :
  Backend.alert_id row <> alert_id -> Backend.acknowledge alert_id row = row.
Proof.
  intros Hne. unfold Backend.acknowledge.
  apply String.eqb_neq in Hne. by rewrite Hne.
Qed.

Lemma acknowledge_idempotent (alert_id : string) (row : Backend.alert_row) :
  Backend.acknowledge alert_id (Backend.acknowledge alert_id row)
  = Backend.acknowledge alert_id row.
Proof.
  unfold Backend.acknowledge.
  destruct (String.eqb (Backend.alert_id row) alert_id) eqn:Heq; simpl;
    by rewrite Heq.
Qed.

Lemma rowcount_acknowledge (alert_id : string)
  (rows : list Backend.alert_row) :
  Backend.rowcount alert_id (map (Backend.acknowledge alert_id) rows)
  = Backend.rowcount alert_id rows.
Proof.
  unfold Backend.rowcount. induction rows as [|r rows IH]; [done|].
  simpl. unfold Backend.acknowledge at 1.
  destruct (String.eqb (Backend.alert_id r) alert_id) eqn:Heq; simpl;
    rewrite Heq; simpl; by rewrite IH.
Qed.

(** X15: acknowledging an identifier no alert has answers 404 and leaves the
    whole state as it was. *)
Theorem ack_alert_unknown (st : Backend.state) (alert_id : string) :
  (forall row, row ∈ Backend.alerts st -> Backend.alert_id row <> alert_id) ->
  Backend.ack_alert st alert_id = (st, Backend.not_found_404).
Proof.
  intros Hnone. unfold Backend.ack_alert.
  rewrite (proj2 (rowcount_zero alert_id (Backend.alerts st)) Hnone). simpl.
  f_equal. destruct st as [dz dif readings alerts]. simpl in *. f_equal.
  induction alerts as [|r alerts IH]; [done|]. simpl.
  rewrite acknowledge_other by (apply Hnone; by left).
  f_equal. apply IH. intros row Hrow. apply Hnone. by right.
Qed.

Lemma ack_alert_unknown_witness :
  Backend.ack_alert Samples.backend_two_alerts "a3"
  = (Samples.backend_two_alerts, Backend.not_found_404).
Proof.
  apply (ack_alert_unknown Samples.backend_two_alerts "a3").
  intros row Hrow.
  unfold Samples.backend_two_alerts in Hrow. vm_compute in Hrow.
  repeat (apply elem_of_cons in Hrow as [->|Hrow]; [discriminate|]).
  by apply elem_of_nil in Hrow.
Defined.

(** X16: acknowledging an identifier some alert has answers "acknowledged";
    it sets the flag of the rows with that identifier and changes nothing
    else: the detectors, the readings, the number and order of the alerts,
    every other field and the flags of the other rows (a flag is never
    cleared).  Acknowledging again gives the same answer and state. *)
Theorem ack_alert_known (st : Backend.state) (alert_id : string) :
  (exists row, row ∈ Backend.alerts st /\ Backend.alert_id row = alert_id) ->
  let st' := fst (Backend.ack_alert st alert_id) in
  snd (Backend.ack_alert st alert_id) = Backend.status_acknowledged alert_id
  /\ Backend.det_z st' = Backend.det_z st
  /\ Backend.det_if st' = Backend.det_if st
  /\ Backend.sensor_readings st' = Backend.sensor_readings st
  /\ length (Backend.alerts st') = length (Backend.alerts st)
  /\ (forall i row,
        Backend.alerts st !! i = Some row ->
        exists row',
          Backend.alerts st' !! i = Some row'
          /\ Backend.alert_id row' = Backend.alert_id row
          /\ Backend.alert_station_id row' = Backend.alert_station_id row
          /\ Backend.alert_timestamp row' = Backend.alert_timestamp row
          /\ Backend.threat_type row' = Backend.threat_type row
          /\ Backend.severity row' = Backend.severity row
          /\ Backend.confidence row' = Backend.confidence row
          /\ Backend.alert_payload row' = Backend.alert_payload row
          /\ Backend.acknowledged row'
             = Backend.acknowledged row
               || String.eqb (Backend.alert_id row) alert_id)
  /\ Backend.ack_alert st' alert_id
     = (st', Backend.status_acknowledged alert_id).
Proof.
  intros (r & Hr & Hid) st'.
  assert (Backend.rowcount alert_id (Backend.alerts st) <> 0%nat) as Hcount.
  { rewrite rowcount_zero. intros Hnone. by apply (Hnone r). }
  assert (Backend.ack_alert st alert_id
          = ({| Backend.det_z := Backend.det_z st;
                Backend.det_if := Backend.det_if st;
                Backend.sensor_readings := Backend.sensor_readings st;
                Backend.alerts :=
                  map (Backend.acknowledge alert_id) (Backend.alerts st) |},
             Backend.status_acknowledged alert_id)) as Hack.
  { unfold Backend.ack_alert.
    by destruct (Nat.eqb_spec (Backend.rowcount alert_id (Backend.alerts st))
                   0). }
  subst st'. rewrite Hack. cbn [fst snd Backend.det_z Backend.det_if
                                  Backend.sensor_readings Backend.alerts].
  repeat (split; [done|]). split; [by rewrite length_map|]. split.
  - intros i row Hrow. exists (Backend.acknowledge alert_id row).
    split.
    { change (map (Backend.acknowledge alert_id) (Backend.alerts st))
        with (Backend.acknowledge alert_id <$> Backend.alerts st).
      by rewrite list_lookup_fmap, Hrow. }
    unfold Backend.acknowledge.
    destruct (String.eqb (Backend.alert_id row) alert_id); simpl;
      repeat split; try done.
    + by rewrite orb_true_r.
    + by rewrite orb_false_r.
  - unfold Backend.ack_alert at 1.
    cbn [Backend.det_z Backend.det_if Backend.sensor_readings Backend.alerts].
    rewrite rowcount_acknowledge.
    destruct (Nat.eqb_spec (Backend.rowcount alert_id (Backend.alerts st)) 0);
      [done|].
    f_equal. f_equal. rewrite map_map. apply map_ext.
    intros row. apply acknowledge_idempotent.
Qed.

Lemma ack_alert_known_witness :
  let st' := fst (Backend.ack_alert Samples.backend_two_alerts "a1") in
  snd (Backend.ack_alert Samples.backend_two_alerts "a1")
  = Backend.status_acknowledged "a1"
  /\ Backend.det_z st' = Backend.det_z Samples.backend_two_alerts
  /\ Backend.det_if st' = Backend.det_if Samples.backend_two_alerts
  /\ Backend.sensor_readings st'
     = Backend.sensor_readings Samples.backend_two_alerts
  /\ length (Backend.alerts st')
     = length (Backend.alerts Samples.backend_two_alerts)
  /\ (forall i row,
        Backend.alerts Samples.backend_two_alerts !! i = Some row ->
        exists row',
          Backend.alerts st' !! i = Some row'
          /\ Backend.alert_id row' = Backend.alert_id row
          /\ Backend.alert_station_id row' = Backend.alert_station_id row
          /\ Backend.alert_timestamp row' = Backend.alert_timestamp row
          /\ Backend.threat_type row' = Backend.threat_type row
          /\ Backend.severity row' = Backend.severity row
          /\ Backend.confidence row' = Backend.confidence row
          /\ Backend.alert_payload row' = Backend.alert_payload row
          /\ Backend.acknowledged row'
             = Backend.acknowledged row
               || String.eqb (Backend.alert_id row) "a1")
  /\ Backend.ack_alert st' "a1" = (st', Backend.status_acknowledged "a1").
Proof.
  apply (ack_alert_known Samples.backend_two_alerts "a1").
  eexists. split; [vm_compute; left|reflexivity].
Defined.

End BackendTables.

(** * Listing the alerts *)

Section Listing.

Lemma string_ltb_asym (a b : string) :
  String.ltb a b = true -> String.ltb b a = false.
Proof.
  unfold String.ltb. rewrite (String.compare_antisym b a).
  by destruct (String.compare a b).
Qed.

Lemma string_ltb_false_trans (a b c : string) :
  String.ltb a b = false -> String.ltb b c = false -> String.ltb a c = false.
Proof.
  pose proof OrdersEx.String_as_OT.lt_strorder as [Hirr Htrans].
  unfold String.ltb. change String.compare with OrdersEx.String_as_OT.compare.
  destruct (OrdersEx.String_as_OT.compare_spec a b) as [Hab|Hab|Hab];
    try discriminate;
    destruct (OrdersEx.String_as_OT.compare_spec b c) as [Hbc|Hbc|Hbc];
    try discriminate; intros _ _;
    destruct (OrdersEx.String_as_OT.compare_spec a c) as [Hac|Hac|Hac];
    try reflexivity; exfalso;
    unfold OrdersEx.String_as_OT.eq in *; subst.
  - by apply (Hirr c).
  - apply (Hirr c). eauto.
  - apply (Hirr a). eauto.
  - apply (Hirr a). eauto.
Qed.

Lemma insert_desc_perm (row : Backend.alert_row)
  (rows : list Backend.alert_row) :
  Backend.insert_desc row rows ≡ₚ row :: rows.
Proof.
  induction rows as [|r rows IH]; [done|]. simpl.
  destruct (String.ltb _ _); [done|].
  rewrite IH. apply Permutation_swap.
Qed.

Lemma insert_desc_sorted (row : Backend.alert_row)
  (rows : list Backend.alert_row) :
  StronglySorted Backend.not_older rows ->
  StronglySorted Backend.not_older (Backend.insert_desc row rows).
Proof.
  induction 1 as [|r rows Hsorted IH Hall]; simpl.
  - repeat constructor.
  - destruct (String.ltb (Backend.alert_timestamp r)
                (Backend.alert_timestamp row)) eqn:Hlt.
    + constructor; [by constructor|].
      apply string_ltb_asym in Hlt. constructor; [done|].
      eapply Forall_impl; [exact Hall|]. intros x Hx.
      by apply (string_ltb_false_trans _ (Backend.alert_timestamp r)).
    + constructor; [done|].
      rewrite insert_desc_perm. by constructor.
Qed.

Lemma order_by_timestamp_desc_spec (rows : list Backend.alert_row) :
  Backend.order_by_timestamp_desc rows ≡ₚ rows
  /\ StronglySorted Backend.not_older (Backend.order_by_timestamp_desc rows).
Proof.
  unfold Backend.order_by_timestamp_desc.
  assert (forall acc,
            StronglySorted Backend.not_older acc ->
            fold_left (fun sorted row => Backend.insert_desc row sorted) rows
              acc ≡ₚ acc ++ rows
            /\ StronglySorted Backend.not_older
                 (fold_left
                    (fun sorted row => Backend.insert_desc row sorted) rows
                    acc)) as Hfold.
  { induction rows as [|r rows IH]; intros acc Hacc; simpl.
    - by rewrite app_nil_r.
    - destruct (IH (Backend.insert_desc r acc) (insert_desc_sorted r acc Hacc))
        as [Hperm Hsorted].
      split; [|done]. rewrite Hperm, insert_desc_perm. simpl.
      apply Permutation_middle. }
  apply (Hfold []). constructor.
Qed.

Lemma get_alerts_rows (st : Backend.state) :
  Backend.get_alerts st ≡ₚ map Backend.view (Backend.alerts st)
  /\ StronglySorted Backend.not_older
       (Backend.order_by_timestamp_desc (Backend.alerts st)).
Proof.
  unfold Backend.get_alerts.
  destruct (order_by_timestamp_desc_spec (Backend.alerts st))
    as [Hperm Hsorted].
  split; [by apply Permutation_map|done].
Qed.

(** X17: [get_alerts] lists every stored alert exactly once, each with the
    fields of its row, and lists them from the newest timestamp to the oldest:
    no entry has a timestamp below that of an entry listed after it. *)
Theorem get_alerts_complete_sorted (st : Backend.state) :
  Backend.get_alerts st ≡ₚ map Backend.view (Backend.alerts st)
  /\ StronglySorted
       (fun a b =>
          String.ltb (Backend.view_timestamp a) (Backend.view_timestamp b)
          = false)
       (Backend.get_alerts st).
Proof.
  destruct (get_alerts_rows st) as [Hperm Hsorted].
  split; [done|]. unfold Backend.get_alerts.
  induction Hsorted as [|r rows Hsorted IH Hall]; simpl; constructor.
  - exact IH.
  - apply Forall_map. eapply Forall_impl; [exact Hall|]. by intros x Hx.
Qed.

(** X18: the alert an [ingest] has just created is listed by [get_alerts] as
    unacknowledged, with the first label as its threat type; after
    [ack_alert] of its identifier, which succeeds, it is listed as
    acknowledged, with its other fields as before. *)
Theorem ingest_ack_listed (st : Backend.state) (rid aid : string)
  (payload : Backend.IngestPayload) (first : string) (rest : list string) :
  snd (Backend.ingest st rid aid payload)
  = Backend.status_alert_created aid (first :: rest) ->
  let st1 := fst (Backend.ingest st rid aid payload) in
  let st2 := fst (Backend.ack_alert st1 aid) in
  snd (Backend.ack_alert st1 aid) = Backend.status_acknowledged aid
  /\ exists entry,
       Backend.view_id entry = aid
       /\ Backend.view_threat_type entry = first
       /\ Backend.view_acknowledged entry = false
       /\ entry ∈ Backend.get_alerts st1
       /\ {| Backend.view_id := Backend.view_id entry;
             Backend.view_station_id := Backend.view_station_id entry;
             Backend.view_timestamp := Backend.view_timestamp entry;
             Backend.view_threat_type := Backend.view_threat_type entry;
             Backend.view_severity := Backend.view_severity entry;
             Backend.view_confidence := Backend.view_confidence entry;
             Backend.view_acknowledged := true |}
          ∈ Backend.get_alerts st2.
Proof.
  intros Hresp st1 st2.
  pose proof (ingest_outcome st rid aid payload) as Hout. simpl in Hout.
  rewrite Hresp in Hout.
  destruct Hout
    as (_ & threat & rest' & row & Hl & Halerts & Hid & Hthreat & _ & _ & Hack).
  injection Hl as <- <-.
  fold st1 in Halerts.
  assert (row ∈ Backend.alerts st1) as Hrow.
  { rewrite Halerts. apply elem_of_app. right. by left. }
  assert (Backend.rowcount aid (Backend.alerts st1) <> 0%nat) as Hcount.
  { rewrite rowcount_zero. intros Hnone. by apply (Hnone row). }
  assert (Backend.ack_alert st1 aid
          = ({| Backend.det_z := Backend.det_z st1;
                Backend.det_if := Backend.det_if st1;
                Backend.sensor_readings := Backend.sensor_readings st1;
                Backend.alerts :=
                  map (Backend.acknowledge aid) (Backend.alerts st1) |},
             Backend.status_acknowledged aid)) as Hackd.
  { unfold Backend.ack_alert.
    by destruct (Nat.eqb_spec (Backend.rowcount aid (Backend.alerts st1)) 0). }
  subst st2. rewrite Hackd. cbn [fst snd]. split; [done|].
  exists (Backend.view row). cbn [Backend.view Backend.view_id
    Backend.view_threat_type Backend.view_acknowledged
    Backend.view_station_id Backend.view_timestamp Backend.view_severity
    Backend.view_confidence].
  split; [done|]. split; [done|]. split; [done|]. split.
  - destruct (get_alerts_rows st1) as [Hperm _]. rewrite Hperm.
    change (map Backend.view (Backend.alerts st1))
      with (Backend.view <$> Backend.alerts st1).
    by apply list_elem_of_fmap_2.
  - match goal with |- _ ∈ Backend.get_alerts ?s =>
      destruct (get_alerts_rows s) as [Hperm _] end.
    rewrite Hperm. cbn [Backend.alerts].
    change (map Backend.view (map (Backend.acknowledge aid)
                                (Backend.alerts st1)))
      with (Backend.view <$> (Backend.acknowledge aid <$> Backend.alerts st1)).
    apply list_elem_of_fmap. exists (Backend.acknowledge aid row).
    split; [|by apply list_elem_of_fmap_2].
    unfold Backend.acknowledge. rewrite Hid, String.eqb_refl. reflexivity.
Qed.

End Listing.

Lemma ingest_ack_listed_witness :
  let st1 :=
    fst (Backend.ingest Samples.unfit_backend "rid" "aid"
           Samples.flagged_oil_payload) in
  let st2 := fst (Backend.ack_alert st1 "aid") in
  snd (Backend.ack_alert st1 "aid") = Backend.status_acknowledged "aid"
  /\ exists entry,
       Backend.view_id entry = "aid"%string
       /\ Backend.view_threat_type entry = "possible_oil_spill"%string
       /\ Backend.view_acknowledged entry = false
       /\ entry ∈ Backend.get_alerts st1
       /\ {| Backend.view_id := Backend.view_id entry;
             Backend.view_station_id := Backend.view_station_id entry;
             Backend.view_timestamp := Backend.view_timestamp entry;
             Backend.view_threat_type := Backend.view_threat_type entry;
             Backend.view_severity := Backend.view_severity entry;
             Backend.view_confidence := Backend.view_confidence entry;
             Backend.view_acknowledged := true |}
          ∈ Backend.get_alerts st2.
Proof.
  apply (ingest_ack_listed Samples.unfit_backend "rid" "aid"
           Samples.flagged_oil_payload "possible_oil_spill" []).
  vm_compute. reflexivity.
Defined.

(** * One turn of the simulator, and the backend that receives it *)

Section SimulatorTurn.

Import RollingZScoreDetector.

Lemma sends_to_true (backend_url post_mode target : string) :
  Simulate.sends_to backend_url post_mode target = true ->
  backend_url <> EmptyString /\ (post_mode = target \/ post_mode = "both"%string).
Proof.
  unfold Simulate.sends_to, Simulate.posts. intros Hc.
  apply andb_true_iff in Hc as [Hmode Hposts].
  apply andb_true_iff in Hposts as [Hurl _].
  apply negb_true_iff, String.eqb_neq in Hurl. split; [done|].
  apply orb_true_iff in Hmode as [Hm|Hm]; apply String.eqb_eq in Hm; auto.
Qed.

Lemma station_turn_unfold (backend_url post_mode now : string)
  (det_z : RollingZScoreDetector.t) (det_if : IFDetector.t)
  (station : Simulate.Station) (metrics : gmap string float) :
  let upd := update det_z (Simulate.station_id station) metrics in
  Simulate.station_turn backend_url post_mode now det_z det_if station metrics
  = (fst upd,
     match IFDetector.score det_if metrics with
     | Py.Raise e => Py.Raise e
     | Py.Ok if_score =>
         let labels := label_threat metrics (snd upd) if_score in
         let p :=
           Simulate.build_ingest_payload now station metrics (snd upd)
             if_score labels in
         Py.Ok
           (Simulate.WriteStream p
            :: (if Simulate.sends_to backend_url post_mode "ingest"
                then [Simulate.PostIngest p] else [])
            ++ (if Py.truthy_list labels
                then Simulate.WriteAlert (Simulate.build_alert station p labels)
                     :: (if Simulate.sends_to backend_url post_mode "alerts"
                         then [Simulate.PostAlert
                                 (Simulate.build_alert station p labels)]
                         else [])
                else []))
     end).
Proof.
  intros upd. unfold Simulate.station_turn. fold upd.
  destruct upd as [dz z]. by destruct (IFDetector.score det_if metrics).
Qed.

(** X19: one turn of the simulator's loop updates the rolling detector once.
    When the scorer raises, the turn ends with its exception and nothing is
    written or sent.  Otherwise the turn always writes the reading to the
    stream first, and flags it exactly when the labels are not empty.  An
    alert goes out only for a flagged reading; it is then the one
    [build_alert] makes, it is written to the alerts file, its confidence is
    at least 0.5 and its threat type is one of the labels.  Requests are sent
    only with a backend URL, to /ingest in the modes "ingest" and "both", to
    /alerts in the modes "alerts" and "both". *)
Theorem station_turn_outputs (backend_url post_mode now : string)
  (det_z : RollingZScoreDetector.t) (det_if : IFDetector.t)
  (station : Simulate.Station) (metrics : gmap string float) :
  let upd := update det_z (Simulate.station_id station) metrics in
  let turn :=
    Simulate.station_turn backend_url post_mode now det_z det_if station
      metrics in
  fst turn = fst upd
  /\ match IFDetector.score det_if metrics with
     | Py.Raise e => snd turn = Py.Raise e
     | Py.Ok if_score =>
         let labels := label_threat metrics (snd upd) if_score in
         let p :=
           Simulate.build_ingest_payload now station metrics (snd upd)
             if_score labels in
         exists outputs,
           snd turn = Py.Ok outputs
           /\ (exists rest, outputs = Simulate.WriteStream p :: rest)
           /\ (Simulate.is_anomaly (Simulate.anomaly p) = true
               <-> labels <> [])
           /\ (forall a,
                 Simulate.WriteAlert a ∈ outputs
                 \/ Simulate.PostAlert a ∈ outputs ->
                 labels <> []
                 /\ a = Simulate.build_alert station p labels
                 /\ Simulate.WriteAlert a ∈ outputs
                 /\ (0.5 <=? Simulate.confidence a) = true
                 /\ Simulate.threat_type a ∈ labels)
           /\ (labels <> [] ->
               Simulate.WriteAlert (Simulate.build_alert station p labels)
                 ∈ outputs)
           /\ (forall q,
                 Simulate.PostIngest q ∈ outputs ->
                 q = p /\ backend_url <> EmptyString
                 /\ (post_mode = "ingest"%string \/ post_mode = "both"%string))
           /\ (forall a,
                 Simulate.PostAlert a ∈ outputs ->
                 backend_url <> EmptyString
                 /\ (post_mode = "alerts"%string \/ post_mode = "both"%string))
     end.
Proof.
  intros upd turn.
  pose proof (station_turn_unfold backend_url post_mode now det_z det_if
                station metrics) as Hturn.
  cbn zeta in Hturn. fold upd turn in Hturn.
  rewrite Hturn.
  destruct (IFDetector.score det_if metrics) as [if_score|e]; [|done].
  split; [done|]. intros labels p.
  set (a0 := Simulate.build_alert station p labels) in *.
  exists (Simulate.WriteStream p
          :: (if Simulate.sends_to backend_url post_mode "ingest"
              then [Simulate.PostIngest p] else [])
          ++ (if Py.truthy_list labels
              then Simulate.WriteAlert a0
                   :: (if Simulate.sends_to backend_url post_mode "alerts"
                       then [Simulate.PostAlert a0] else [])
              else [])).
  split; [reflexivity|].
  split; [eauto|].
  assert (Py.truthy_list labels = true <-> labels <> []) as Htruthy
    by (by destruct labels).
  split; [exact Htruthy|].
  assert (forall a,
            Simulate.WriteAlert a
              ∈ Simulate.WriteStream p
                  :: (if Simulate.sends_to backend_url post_mode "ingest"
                      then [Simulate.PostIngest p] else [])
                  ++ (if Py.truthy_list labels
                      then Simulate.WriteAlert a0
                           :: (if Simulate.sends_to backend_url post_mode
                                    "alerts"
                               then [Simulate.PostAlert a0] else [])
                      else [])
            <-> labels <> [] /\ a = a0) as Hwrite.
  { intros a. rewrite <- Htruthy.
    destruct (Simulate.sends_to backend_url post_mode "ingest"),
      (Simulate.sends_to backend_url post_mode "alerts"),
      (Py.truthy_list labels); set_solver. }
  assert (forall a,
            Simulate.PostAlert a
              ∈ Simulate.WriteStream p
                  :: (if Simulate.sends_to backend_url post_mode "ingest"
                      then [Simulate.PostIngest p] else [])
                  ++ (if Py.truthy_list labels
                      then Simulate.WriteAlert a0
                           :: (if Simulate.sends_to backend_url post_mode
                                    "alerts"
                               then [Simulate.PostAlert a0] else [])
                      else [])
            <-> labels <> []
                /\ Simulate.sends_to backend_url post_mode "alerts" = true
                /\ a = a0) as Hpost.
  { intros a. rewrite <- Htruthy.
    destruct (Simulate.sends_to backend_url post_mode "ingest"),
      (Simulate.sends_to backend_url post_mode "alerts"),
      (Py.truthy_list labels); set_solver. }
  assert (forall q,
            Simulate.PostIngest q
              ∈ Simulate.WriteStream p
                  :: (if Simulate.sends_to backend_url post_mode "ingest"
                      then [Simulate.PostIngest p] else [])
                  ++ (if Py.truthy_list labels
                      then Simulate.WriteAlert a0
                           :: (if Simulate.sends_to backend_url post_mode
                                    "alerts"
                               then [Simulate.PostAlert a0] else [])
                      else [])
            <-> Simulate.sends_to backend_url post_mode "ingest" = true
                /\ q = p) as Hpi.
  { intros q.
    destruct (Simulate.sends_to backend_url post_mode "ingest"),
      (Simulate.sends_to backend_url post_mode "alerts"),
      (Py.truthy_list labels); set_solver. }
  split; [|split; [|split]].
  - intros a Ha.
    assert (labels <> [] /\ a = a0) as [Hne ->].
    { destruct Ha as [Ha|Ha]; [by apply Hwrite|].
      apply Hpost in Ha. tauto. }
    split; [done|]. split; [done|]. split; [by apply Hwrite|].
    subst a0. destruct labels as [|first rest]; [done|].
    split; [by apply max_floor|by left].
  - intros Hne. by apply Hwrite.
  - intros q Hq. apply Hpi in Hq as [Hsend ->]. split; [done|].
    by apply sends_to_true in Hsend.
  - intros a Ha. apply Hpost in Ha as (_ & Hsend & _).
    by apply sends_to_true in Hsend.
Qed.

(** A turn on a reading the loaded forest rejects ends the simulator: the
    windows are updated, nothing is written. *)
Example station_turn_rejected_sample :
  snd (Simulate.station_turn "http://localhost:8000" "both"
         "2025-01-01T00:00:00Z" (init 60 3)
         (IFDetector.Build (Some Samples.typical_forest))
         Samples.station_gj Samples.beyond_float32_tide)
  = Py.Raise Py.ValueError.
Proof.
  rewrite station_turn_unfold. cbn [snd].
  assert (IFDetector.score (IFDetector.Build (Some Samples.typical_forest))
            Samples.beyond_float32_tide = Py.Raise Py.ValueError) as ->
    by (vm_compute; reflexivity).
  reflexivity.
Qed.

(** X20: a reading the simulator has flagged, received by the backend under
    identifiers its tables do not hold, gets an alert there without the
    backend's windows being touched, and that alert agrees with the
    simulator's own alert on threat type, severity, station and timestamp.
    The confidence need not agree: the backend stores its own ensemble score
    of the metrics, or 0.5 when its scorer raises on them. *)
Theorem flagged_reading_agreement (now : string) (station : Simulate.Station)
  (metrics zscores : gmap string float) (if_score : float) (first : string)
  (rest : list string) (st : Backend.state) (rid aid : string) :
  Py.contains rid (Backend.reading_ids st) = false ->
  Py.contains aid (Backend.alert_ids st) = false ->
  let labels := first :: rest in
  let p :=
    Simulate.build_ingest_payload now station metrics zscores if_score
      labels in
  let alert := Simulate.build_alert station p labels in
  let received := Backend.ingest st rid aid (Wire.to_backend p) in
  snd received = Backend.status_alert_created aid labels
  /\ Backend.det_z (fst received) = Backend.det_z st
  /\ exists row,
       Backend.alerts (fst received) = Backend.alerts st ++ [row]
       /\ Backend.threat_type row = Simulate.threat_type alert
       /\ Backend.severity row = Simulate.severity alert
       /\ Backend.alert_station_id row = Simulate.alert_station_id alert
       /\ Backend.alert_timestamp row = Simulate.alert_timestamp alert
       /\ Backend.confidence row
          = match IFDetector.score (Backend.det_if st) metrics with
            | Py.Ok c => c
            | Py.Raise _ => 0.5
            end
       /\ Simulate.confidence alert = Py.max 0.5 (Py.round3 if_score).
Proof.
  intros Hrid Haid labels p alert received. subst received.
  unfold Backend.ingest. rewrite Hrid.
  assert (Backend.flagged (Wire.to_backend p) = true) as -> by done.
  assert (Backend.payload_labels (Wire.to_backend p) = first :: rest) as ->
    by done.
  rewrite Haid.
  cbn [fst snd Backend.det_z Backend.alerts].
  split; [done|]. split; [done|]. eexists. split; [done|].
  cbn [Backend.threat_type Backend.severity Backend.alert_station_id
         Backend.alert_timestamp Backend.confidence].
  repeat split.
Qed.

Lemma flagged_reading_agreement_witness :
  let labels := ["possible_flooding"%string] in
  let p :=
    Simulate.build_ingest_payload "2025-01-01T00:00:00Z" Samples.station_gj
      Samples.beyond_float32_tide ∅ 0.9 labels in
  let alert := Simulate.build_alert Samples.station_gj p labels in
  let st := Samples.fitted_backend Samples.typical_forest in
  let received := Backend.ingest st "rid" "aid" (Wire.to_backend p) in
  snd received = Backend.status_alert_created "aid" labels
  /\ Backend.det_z (fst received) = Backend.det_z st
  /\ exists row,
       Backend.alerts (fst received) = Backend.alerts st ++ [row]
       /\ Backend.threat_type row = Simulate.threat_type alert
       /\ Backend.severity row = Simulate.severity alert
       /\ Backend.alert_station_id row = Simulate.alert_station_id alert
       /\ Backend.alert_timestamp row = Simulate.alert_timestamp alert
       /\ Backend.confidence row
          = match IFDetector.score (Backend.det_if st)
                    Samples.beyond_float32_tide with
            | Py.Ok c => c
            | Py.Raise _ => 0.5
            end
       /\ Simulate.confidence alert = Py.max 0.5 (Py.round3 0.9).
Proof.
  apply (flagged_reading_agreement "2025-01-01T00:00:00Z" Samples.station_gj
           Samples.beyond_float32_tide ∅ 0.9 "possible_flooding" []
           (Samples.fitted_backend Samples.typical_forest) "rid" "aid");
    reflexivity.
Defined.

(** The confidence the backend stores for a flagged reading its forest
    rejects is the fallback 0.5, that of a reading it accepts the score. *)
Example flagged_reading_confidence :
  let confidences (metrics : gmap string float) :=
    map Backend.confidence
      (Backend.alerts
         (fst (Backend.ingest (Samples.fitted_backend Samples.outlier_forest)
                 "rid" "aid"
                 (Wire.to_backend
                    (Simulate.build_ingest_payload "2025-01-01T00:00:00Z"
                       Samples.station_gj metrics ∅ 0.9
                       ["possible_flooding"%string]))))) in
  confidences Samples.beyond_float32_tide = [0.5]
  /\ confidences Samples.stuck_tide = [0.5]
  /\ confidences Samples.calm_metrics = [0.75].
Proof. repeat split; vm_compute; reflexivity. Qed.

(** X21: a reading the simulator has not flagged is detected again by the
    backend.  When the backend holds the windows and the ensemble the
    simulator held before the turn and stores the reading under a fresh
    identifier, it ends with the windows the simulator ends with, finds no
    label either, and stores no alert; under an identifier it holds, it
    raises IntegrityError and nothing changes. *)
Theorem unflagged_reading_redetected (backend_url post_mode now : string)
  (det_z : RollingZScoreDetector.t) (det_if : IFDetector.t)
  (station : Simulate.Station) (metrics : gmap string float)
  (readings : list Backend.reading_row) (alerts : list Backend.alert_row)
  (rid aid : string) (q : Simulate.IngestPayload) (if_score : float)
  (outputs : list Simulate.output) :
  IFDetector.score det_if metrics = Py.Ok if_score ->
  label_threat metrics
    (snd (update det_z (Simulate.station_id station) metrics)) if_score
  = [] ->
  let turn :=
    Simulate.station_turn backend_url post_mode now det_z det_if station
      metrics in
  snd turn = Py.Ok outputs ->
  Simulate.PostIngest q ∈ outputs ->
  let st :=
    {| Backend.det_z := det_z;
       Backend.det_if := det_if;
       Backend.sensor_readings := readings;
       Backend.alerts := alerts |} in
  let received := Backend.ingest st rid aid (Wire.to_backend q) in
  Backend.alerts (fst received) = alerts
  /\ if Py.contains rid (Backend.reading_ids st)
     then received = (st, Backend.raised Py.IntegrityError)
     else
       Backend.det_z (fst received) = fst turn
       /\ snd received = Backend.status_ok [].
Proof.
  intros Hscore Hnone turn Hout Hq st received.
  pose proof (station_turn_unfold backend_url post_mode now det_z det_if
                station metrics) as Hturn.
  cbn zeta in Hturn. fold turn in Hturn.
  rewrite Hscore, Hnone in Hturn.
  cbn [Py.truthy_list] in Hturn. rewrite app_nil_r in Hturn.
  rewrite Hturn in Hout |- *. cbn [fst snd] in Hout |- *.
  injection Hout as <-.
  assert (q = Simulate.build_ingest_payload now station metrics
                (snd (update det_z (Simulate.station_id station) metrics))
                if_score []) as ->.
  { destruct (Simulate.sends_to backend_url post_mode "ingest");
      set_solver. }
  subst received. unfold Backend.ingest.
  destruct (Py.contains rid (Backend.reading_ids st)); [done|].
  assert (Backend.flagged (Wire.to_backend
            (Simulate.build_ingest_payload now station metrics
               (snd (update det_z (Simulate.station_id station) metrics))
               if_score [])) = false) as -> by done.
  subst st.
  cbn [Wire.to_backend Simulate.build_ingest_payload Backend.station_id
         Backend.metrics Backend.det_z Backend.det_if
         Simulate.payload_station_id Simulate.metrics].
  destruct (update det_z (Simulate.station_id station) metrics) as [dz z].
  cbn [snd] in Hnone. rewrite Hscore, Hnone. done.
Qed.

Lemma unflagged_reading_redetected_witness :
  let q :=
    Simulate.build_ingest_payload "2025-01-01T00:00:00Z" Samples.station_gj
      Samples.calm_metrics
      (snd (update (init 60 3) "IN-GJ-001" Samples.calm_metrics)) 0 [] in
  let turn :=
    Simulate.station_turn "http://localhost:8000" "ingest"
      "2025-01-01T00:00:00Z" (init 60 3) (IFDetector.Build None)
      Samples.station_gj Samples.calm_metrics in
  let received :=
    Backend.ingest Samples.unfit_backend "rid" "aid" (Wire.to_backend q) in
  Backend.alerts (fst received) = []
  /\ Backend.det_z (fst received) = fst turn
  /\ snd received = Backend.status_ok [].
Proof.
  intros q.
  apply (unflagged_reading_redetected "http://localhost:8000" "ingest"
           "2025-01-01T00:00:00Z" (init 60 3) (IFDetector.Build None)
           Samples.station_gj Samples.calm_metrics [] [] "rid" "aid" q 0
           [Simulate.WriteStream q; Simulate.PostIngest q]).
  - reflexivity.
  - vm_compute. reflexivity.
  - rewrite (station_turn_unfold "http://localhost:8000" "ingest"
               "2025-01-01T00:00:00Z" (init 60 3) (IFDetector.Build None)
               Samples.station_gj Samples.calm_metrics).
    reflexivity.
  - set_solver.
Defined.

End SimulatorTurn.

(** * What the windows forget, and what the anomaly flag implies *)

Section Forgetting.

Import RollingZScoreDetector Trace.

Lemma keep_last_snoc {A : Type} (n : nat) (l : list A) (x : A) :
  keep_last (S n) (l ++ [x]) = keep_last n l ++ [x].
Proof.
  unfold keep_last. rewrite length_app. simpl.
  replace (length l + 1 - S n)%nat with (length l - n)%nat by lia.
  apply drop_app_le. lia.
Qed.

(** X22: the z-score of a call depends on the new value and on the last
    [window - 1] values the station supplied before: values that have left
    the window have no influence on it. *)
Theorem zscore_forgets_old_values (w : nat) (zt : float)
  (calls1 calls2 : list call) (sid : string) (metrics : gmap string float)
  (m : string) :
  keep_last (w - 1) (supplied sid m calls1)
  = keep_last (w - 1) (supplied sid m calls2) ->
  snd (update (run (init w zt) calls1) sid metrics) !! m
  = snd (update (run (init w zt) calls2) sid metrics) !! m.
Proof.
  intros Hrecent.
  destruct (update_spec (run (init w zt) calls1) sid metrics) as (_ & _ & ->).
  destruct (update_spec (run (init w zt) calls2) sid metrics) as (_ & _ & ->).
  case_decide as Hm; [|done]. f_equal.
  unfold emitted. rewrite !window_run, !buffer_run by done. simpl.
  rewrite !deque_append_keep_last.
  destruct w as [|w].
  - unfold keep_last. by rewrite !Nat.sub_0_r, !skipn_all.
  - rewrite !keep_last_snoc.
    replace (S w - 1)%nat with w in Hrecent by lia. by rewrite Hrecent.
Qed.

Lemma zscore_forgets_old_values_witness :
  snd (update (run (init 3 3) Samples.old_tide_calls) "IN-GJ-001"
         Samples.steady_tide) !! "tide_level_m"%string
  = snd (update (run (init 3 3) Samples.recent_tide_calls) "IN-GJ-001"
           Samples.steady_tide) !! "tide_level_m"%string.
Proof.
  apply (zscore_forgets_old_values 3 3 Samples.old_tide_calls
           Samples.recent_tide_calls "IN-GJ-001" Samples.steady_tide
           "tide_level_m").
  vm_compute. reflexivity.
Defined.

(** X23: the labeller does not consult [is_anomaly], and the two can differ;
    but with the threshold 3.0 of both callers, z-scores that [is_anomaly]
    does not flag cannot carry the label possible_algal_bloom. *)
Theorem unflagged_zscores_no_bloom (self : RollingZScoreDetector.t)
  (metrics z : gmap string float) (if_score : float) :
  z_thresh self = 3 ->
  is_anomaly self z = false ->
  "possible_algal_bloom"%string ∉ label_threat metrics z if_score.
Proof.
  intros Hthresh Hflag Hin.
  apply label_threat_elem_of in Hin.
  assert (Spec.algal_bloom_rule z = true) as Hrule.
  { destruct Hin as [[_ Heq]|[[Hrule _]|[[_ Heq]|[_ Heq]]]];
      (done || discriminate). }
  unfold Spec.algal_bloom_rule, Spec.zabs, Py.get in Hrule.
  apply andb_true_iff in Hrule as [Hchl _].
  destruct (z !! "chlorophyll_mg_m3"%string) as [v|] eqn:Hv.
  - rewrite is_anomaly_false_iff in Hflag.
    specialize (Hflag _ _ Hv). rewrite Hthresh in Hflag. congruence.
  - vm_compute in Hchl. discriminate.
Qed.

Lemma unflagged_zscores_no_bloom_witness :
  "possible_algal_bloom"%string ∉ label_threat ∅ Samples.storm_z 0.2.
Proof.
  apply (unflagged_zscores_no_bloom (init 60 3) ∅ Samples.storm_z 0.2).
  - reflexivity.
  - vm_compute. reflexivity.
Defined.

(** A storm is labelled although [is_anomaly] does not flag it. *)
Example flooding_without_anomaly_flag :
  is_anomaly (init 60 3) Samples.storm_z = false
  /\ label_threat ∅ Samples.storm_z 0.2 = ["possible_flooding"%string].
Proof. split; vm_compute; reflexivity. Qed.

End Forgetting.
